(** * Credit handling of the PDF builder: batch submission, PayPal webhook,
      credit deduction endpoint and the in-memory rate limiter.

    The route handlers of [src/app/api/batch/route.ts] and
    [src/app/api/webhooks/paypal/route.ts] are embedded as programs over the
    requests they await (Supabase queries, the [deduct_credits] procedure,
    [deductCreditsAtomic]); a program is run either sequentially or under an
    explicit schedule that interleaves several handlers at their awaits. *)

From Stdlib Require Import ZArith QArith String List Lia.
From stdpp Require Import base option gmap strings list.

Local Open Scope string_scope.
Local Open Scope Z_scope.

(** ** JavaScript values the handlers compute with *)

Module JS.

(** The values that reach the credit arithmetic.  [Builtin] is a function
    that an object literal inherits from [Object.prototype], [Prototype] is
    the prototype object itself, which [__proto__] answers with; [Text] is
    the string that [+] builds when one operand is not a number. *)
Inductive value :=
| Undefined
| Number (n : Z)
| NaN
| Text
| Builtin
| Prototype.

#[global] Instance value_eq_dec : EqDecision value.
Proof. solve_decision. Defined.

Definition truthy (v : value) : bool :=
  match v with
  | Undefined => false
  | Number n => negb (n =? 0)
  | NaN => false
  | Text => true
  | Builtin => true
  | Prototype => true
  end.

(** [a || b] *)
Definition or_else (a b : value) : value := if truthy a then a else b.

(** [a === 0] *)
Definition is_zero (v : value) : bool :=
  match v with Number 0 => true | _ => false end.

(** [a + b]: numeric addition on numbers, concatenation as soon as one side
    converts to a string. *)
Definition add (a b : value) : value :=
  match a, b with
  | Number x, Number y => Number (x + y)
  | Text, _ | _, Text | Builtin, _ | _, Builtin
  | Prototype, _ | _, Prototype => Text
  | _, _ => NaN
  end.

(** [a * b] *)
Definition mul (a b : value) : value :=
  match a, b with
  | Number x, Number y => Number (x * y)
  | _, _ => NaN
  end.

(** [a < b] on a number and a product; any comparison with [NaN] is false. *)
Definition lt (a b : value) : bool :=
  match a, b with
  | Number x, Number y => x <? y
  | _, _ => false
  end.

(** Names every object literal answers to through [Object.prototype]. *)
Definition Object_prototype : list string :=
  [ "constructor"; "__defineGetter__"; "__defineSetter__"; "hasOwnProperty";
    "__lookupGetter__"; "__lookupSetter__"; "isPrototypeOf";
    "propertyIsEnumerable"; "toString"; "valueOf"; "__proto__";
    "toLocaleString" ].

(** [obj[key]] for an object literal whose own properties are numbers. *)
Definition get (obj : gmap string Z) (key : string) : value :=
  match obj !! key with
  | Some n => Number n
  | None =>
      if bool_decide (key ∈ Object_prototype) then
        if String.eqb key "__proto__" then Prototype else Builtin
      else Undefined
  end.

(** [!s] for a string-valued field that may be absent. *)
Definition blank (s : option string) : bool :=
  match s with
  | Some EmptyString | None => true
  | Some _ => false
  end.

(** A string field that passes the [!field] test. *)
Definition present (s : option string) : option string :=
  if blank s then None else s.

(** What the handler has in hand after [const body = await request.json()]
    when it destructures [body]: [request.json()] has thrown, or the body is
    [null], on which the destructuring throws, or the body has fields; a
    field the body does not have is absent from [fields] (so a body that is
    a number, a string or a boolean has no field at all). *)
Inductive parsed (A : Type) : Type :=
| Threw
| Null
| Fields (fields : A).
Arguments Threw {A}.
Arguments Null {A}.
Arguments Fields {A} fields.

Definition fields_of {A} (p : parsed A) : option A :=
  match p with Fields a => Some a | _ => None end.

(** *** Numbers in double precision

    [parseFloat(value) * 100] is computed in binary64.  A finite double is
    kept as its sign and the pair [(m, e)] of its value [m * 2^e]; rounding
    is to the nearest double, ties to the even one, with the exponent range
    of binary64 (54 bits of [m] never occur, [e >= -1074], overflow to
    infinity at [2^1024]). *)
Inductive double :=
| Finite (negative : bool) (m e : Z)
| Infinite (negative : bool)
| NotANumber.

(** [floor (log2 (p / q))] for positive [p] and [q]. *)
Definition floor_log2 (p q : Z) : Z :=
  let d := Z.log2 p - Z.log2 q in
  if q * 2 ^ Z.max d 0 <=? p * 2 ^ Z.max (- d) 0 then d else d - 1.

(** The integer nearest to [n / d], the even one on a tie. *)
Definition nearest_even (n d : Z) : Z :=
  let f := n / d in
  let r := n mod d in
  if 2 * r <? d then f
  else if d <? 2 * r then f + 1
  else if Z.even f then f else f + 1.

(** The double nearest to the rational [p / q], [0 <= p], [0 < q]. *)
Definition to_double (negative : bool) (p q : Z) : double :=
  if p =? 0 then Finite negative 0 0
  else
    let e := Z.max (floor_log2 p q - 52) (-1074) in
    let m := nearest_even (p * 2 ^ Z.max (- e) 0) (q * 2 ^ Z.max e 0) in
    if (971 <? e) || ((e =? 971) && (m =? 2 ^ 53)) then Infinite negative
    else Finite negative m e.

(** [a * 100] *)
Definition times_100 (a : double) : double :=
  match a with
  | Finite negative m e =>
      to_double negative (100 * m * 2 ^ Z.max e 0) (2 ^ Z.max (- e) 0)
  | Infinite negative => Infinite negative
  | NotANumber => NotANumber
  end.

(** The integer a double is, when it is one; this is the text
    [JSON.stringify] sends for it, [null] being sent for the infinities and
    for [NaN]. *)
Definition whole (a : double) : option Z :=
  match a with
  | Finite negative m e =>
      if 0 <=? e then Some ((if negative then -1 else 1) * (m * 2 ^ e))
      else if m mod 2 ^ (- e) =? 0 then
        Some ((if negative then -1 else 1) * (m / 2 ^ (- e)))
      else None
  | _ => None
  end.

Definition code (c : Ascii.ascii) : Z := Z.of_N (Ascii.N_of_ascii c).

Definition digit (c : Ascii.ascii) : option Z :=
  if (48 <=? code c) && (code c <=? 57) then Some (code c - 48) else None.

(** White space that [parseFloat] skips, as far as it is ASCII. *)
Definition white (c : Ascii.ascii) : bool :=
  (9 <=? code c) && (code c <=? 13) || (code c =? 32).

Fixpoint skip_white (s : string) : string :=
  match s with
  | String c rest => if white c then skip_white rest else s
  | EmptyString => s
  end.

(** The digits at the front of [s], appended to the number [value] read so
    far; [count] counts them. *)
Fixpoint digits (s : string) (value count : Z) : Z * Z * string :=
  match s with
  | String c rest =>
      match digit c with
      | Some d => digits rest (10 * value + d) (count + 1)
      | None => (value, count, s)
      end
  | EmptyString => (value, count, s)
  end.

(** The exponent part [e], [e+] or [e-] followed by digits; an [e] that no
    digit follows is not part of the number. *)
Definition exponent (s : string) : Z :=
  match s with
  | String c rest =>
      if (code c =? 101) || (code c =? 69) then
        match rest with
        | String sign rest1 =>
            if code sign =? 45 then
              let '(x, n, _) := digits rest1 0 0 in if 0 <? n then - x else 0
            else if code sign =? 43 then
              let '(x, n, _) := digits rest1 0 0 in if 0 <? n then x else 0
            else
              let '(x, n, _) := digits rest 0 0 in if 0 <? n then x else 0
        | EmptyString => 0
        end
      else 0
  | EmptyString => 0
  end.

(** The unsigned part of a decimal literal. *)
Definition unsigned_literal (negative : bool) (s : string) : double :=
  if String.prefix "Infinity" s then Infinite negative
  else
    let '(i, ni, rest) := digits s 0 0 in
    let '(v, nf, rest1) :=
      match rest with
      | String c after =>
          if code c =? 46 then digits after i 0 else (i, 0, rest)
      | EmptyString => (i, 0, rest)
      end in
    if (ni =? 0) && (nf =? 0) then NotANumber
    else
      let x := exponent rest1 - nf in
      if 0 <=? x then to_double negative (v * 10 ^ x) 1
      else to_double negative v (10 ^ (- x)).

(** [parseFloat(s)]: the longest decimal literal at the front of the
    trimmed string, rounded to a double; [NaN] when there is none. *)
Definition parseFloat (s : string) : double :=
  match skip_white s with
  | String c rest =>
      if code c =? 45 then unsigned_literal true rest
      else if code c =? 43 then unsigned_literal false rest
      else unsigned_literal false (String c rest)
  | EmptyString => NotANumber
  end.

#[global] Arguments parseFloat : simpl never.
#[global] Arguments times_100 : simpl never.
#[global] Arguments whole : simpl never.

End JS.

(** ** Rate limiter ([checkRateLimit]) *)

Module RateLimit.

Record limit := Limit { count : Z; resetAt : Z }.

Definition RATE_LIMIT : Z := 10.
Definition RATE_WINDOW : Z := 60 * 1000.

(** [now] is the reading of [Date.now()]; the map is [rateLimitMap].  The
    source increments the entry held by the map in place, which is an
    update of the map at [userId]. *)
Definition checkRateLimit (userId : string) (now : Z)
    (rateLimitMap : gmap string limit) : gmap string limit * bool :=
  match rateLimitMap !! userId with
  | Some userLimit =>
      if now >? resetAt userLimit then
        (<[userId := Limit 1 (now + RATE_WINDOW)]> rateLimitMap, true)
      else if count userLimit >=? RATE_LIMIT then
        (rateLimitMap, false)
      else
        (<[userId := Limit (count userLimit + 1) (resetAt userLimit)]>
           rateLimitMap, true)
  | None =>
      (<[userId := Limit 1 (now + RATE_WINDOW)]> rateLimitMap, true)
  end.

(** A run of calls, each by some identity at some clock reading; the
    verdicts are returned in call order. *)
Fixpoint serve (calls : list (string * Z)) (m : gmap string limit)
    : gmap string limit * list (string * bool) :=
  match calls with
  | [] => (m, [])
  | (u, now) :: rest =>
      let '(m1, ok) := checkRateLimit u now m in
      let '(m2, out) := serve rest m1 in
      (m2, (u, ok) :: out)
  end.

(** The verdicts given to one identity. *)
Fixpoint verdicts (u : string) (out : list (string * bool)) : list bool :=
  match out with
  | [] => []
  | (v, ok) :: rest =>
      if bool_decide (v = u) then ok :: verdicts u rest else verdicts u rest
  end.

(** The clock readings of one identity's calls. *)
Fixpoint times (u : string) (calls : list (string * Z)) : list Z :=
  match calls with
  | [] => []
  | (v, t) :: rest =>
      if bool_decide (v = u) then t :: times u rest else times u rest
  end.

(** A call opens a window when the identity has no entry or its entry has
    lapsed. *)
Definition opens_window (u : string) (now : Z) (m : gmap string limit) : Prop :=
  match m !! u with
  | Some l => resetAt l < now
  | None => True
  end.

End RateLimit.

(** ** The store behind the Supabase client *)

Module Store.

(** Rows keep the columns the handlers write.  The timestamps
    ([created_at], [updated_at]) are left out.  The amount columns of
    [receipts] and [payment_logs] are [INTEGER NOT NULL]. *)
Record credit_transaction := CreditTransaction {
  tx_user_id : string;
  tx_amount : Z;
  tx_reason : string;
  tx_capture_id : string;
  tx_amount_paid : string;
  tx_currency : string;
  tx_plan_id : string }.

Record receipt := Receipt {
  rc_user_id : string;
  rc_type : string;
  rc_amount : Z;
  rc_currency : string;
  rc_credits : option Z;
  rc_paypal_capture_id : string }.

Record payment_log := PaymentLog {
  pl_user_id : string;
  pl_provider : string;
  pl_payment_id : string;
  pl_status : string;
  pl_amount : Z;
  pl_currency : string }.

(** The values of a 32-bit [INTEGER] column. *)
Definition int4 (n : Z) : bool := (-2147483648 <=? n) && (n <=? 2147483647).

Definition in_int4 (n : Z) : Prop := -2147483648 ≤ n ∧ n ≤ 2147483647.

#[global] Arguments int4 : simpl never.

(** [BatchFile.status] *)
Inductive file_status := pending | processing | completed | failed.

Record BatchFile := { input_url : string; status : file_status }.

Record batch_job := BatchJob {
  job_id : nat;
  job_user_id : string;
  job_operation : string;
  job_status : string;
  job_files : list BatchFile;
  job_options : list (string * string);
  job_progress : Z }.

Record queue_row := QueueRow {
  q_job_id : nat;
  q_job_type : string;
  q_status : string }.

(** [user_credits] holds one integer per user; the webhook names the column
    [credits] and the batch route names it [balance], and both are read
    from and written to that one number.  [auth_users] is the session
    table of [supabase.auth.getUser]. *)
Record db := Db {
  user_credits : gmap string Z;
  credit_transactions : list credit_transaction;
  receipts : list receipt;
  payment_logs : list payment_log;
  batch_jobs : list batch_job;
  job_queue : list queue_row;
  auth_users : gmap string string }.

Definition with_user_credits (f : gmap string Z → gmap string Z) (d : db) : db :=
  Db (f (user_credits d)) (credit_transactions d) (receipts d)
     (payment_logs d) (batch_jobs d) (job_queue d) (auth_users d).

Definition add_credit_transaction (r : credit_transaction) (d : db) : db :=
  Db (user_credits d) (credit_transactions d ++ [r]) (receipts d)
     (payment_logs d) (batch_jobs d) (job_queue d) (auth_users d).

Definition add_receipt (r : receipt) (d : db) : db :=
  Db (user_credits d) (credit_transactions d) (receipts d ++ [r])
     (payment_logs d) (batch_jobs d) (job_queue d) (auth_users d).

Definition add_payment_log (r : payment_log) (d : db) : db :=
  Db (user_credits d) (credit_transactions d) (receipts d)
     (payment_logs d ++ [r]) (batch_jobs d) (job_queue d) (auth_users d).

Definition add_batch_job (r : batch_job) (d : db) : db :=
  Db (user_credits d) (credit_transactions d) (receipts d)
     (payment_logs d) (batch_jobs d ++ [r]) (job_queue d) (auth_users d).

Definition add_queue_row (r : queue_row) (d : db) : db :=
  Db (user_credits d) (credit_transactions d) (receipts d)
     (payment_logs d) (batch_jobs d) (job_queue d ++ [r]) (auth_users d).

(** The credit balance of a user as the handlers read it
    ([data?.credits || 0]). *)
Definition balance_of (d : db) (userId : string) : Z :=
  default 0 (user_credits d !! userId).

(** What [deductCreditsAtomic] hands back to the deduction route. *)
Record deduct_result := DeductResult {
  success : bool;
  error : string;
  remaining : option Z;
  required : option Z }.

(** Two callees live outside the sources at hand: the stored procedure
    behind [supabase.rpc('deduct_credits', ...)] and [deductCreditsAtomic]
    of [@/lib/supabase-client].  They are parameters of the embedding. *)
Record externals := Externals {
  deduct_credits : string → JS.value → string → db → db;
  deductCreditsAtomic : string → Q → string → db → db * deduct_result }.

Inductive level := Info | Error.

(** The process: the database, the module-level [rateLimitMap], the clock
    behind [Date.now()] and the console. *)
Record world := World {
  store : db;
  rateLimitMap : gmap string RateLimit.limit;
  clock : Z;
  console : list (level * string) }.

Definition with_store (f : db → db) (w : world) : world :=
  World (f (store w)) (rateLimitMap w) (clock w) (console w).

End Store.

(** ** Handlers as programs over the requests they issue *)

Module Prog.
Import Store.

(** One constructor per call the handlers make on the outside.  The
    console and the rate limiter are synchronous; all the others are
    awaited, which is where another handler can run in between. *)
Inductive op : Type → Type :=
| ConsoleLog (l : level) (msg : string) : op unit
| CheckRateLimit (userId : string) : op bool
| AuthGetUser (token : string) : op (option string)
| SelectCredits (column userId : string) : op (option Z)
| UpsertCredits (userId : string) (credits : JS.value) : op unit
| InsertCreditTransaction (userId : string) (amount : JS.value)
    (reason capture_id amount_paid currency plan_id : string) : op unit
| InsertReceipt (userId type : string) (amount : JS.double) (currency : string)
    (credits : JS.value) (paypal_capture_id : string) : op unit
| InsertPaymentLog (userId provider payment_id status : string)
    (amount : JS.double) (currency : string) : op unit
| InsertBatchJob (userId operation status : string) (files : list BatchFile)
    (options : list (string * string)) (progress : Z) : op (option batch_job)
| RpcDeductCredits (p_user_id : string) (p_amount : JS.value)
    (p_reason : string) : op unit
| InsertJobQueue (job_id : nat) (job_type status : string) : op unit
| DeductCreditsAtomic (userId : string) (amount : Q) (reason : string)
    : op deduct_result.

Definition awaited {T} (o : op T) : bool :=
  match o with
  | ConsoleLog _ _ | CheckRateLimit _ => false
  | _ => true
  end.

Inductive exn :=
| TypeError (msg : string)
| SyntaxError (msg : string)
| StoreError (msg : string).

Definition message (e : exn) : string :=
  match e with TypeError m | SyntaxError m | StoreError m => m end.

Inductive prog (R : Type) : Type :=
| Ret (r : R)
| Throw (e : exn)
| Do {T : Type} (o : op T) (k : T → prog R).
Arguments Ret {R} r.
Arguments Throw {R} e.
Arguments Do {R T} o k.

Fixpoint bind {A B} (p : prog A) (f : A → prog B) : prog B :=
  match p with
  | Ret a => f a
  | Throw e => Throw e
  | Do o k => Do o (λ t, bind (k t) f)
  end.

(** [try { p } catch (e) { h e }] *)
Fixpoint catch {A} (p : prog A) (h : exn → prog A) : prog A :=
  match p with
  | Ret a => Ret a
  | Throw e => h e
  | Do o k => Do o (λ t, catch (k t) h)
  end.

#[global] Instance prog_ret : MRet prog := @Ret.
#[global] Instance prog_bind : MBind prog := λ A B f p, bind p f.

Definition call {T} (o : op T) : prog T := Do o Ret.

(** An [INTEGER NOT NULL] column takes a whole number of the 32-bit range
    and refuses anything else the handlers send it: a number out of range, a
    string, [NaN] (sent as [null]), an object, and for the ledger, where the
    column has no default, a function or [undefined] (left out of the JSON
    text).  The balance column is only ever sent a sum, which is a number, a
    string or [NaN].  The client reports the refusal in the [error] field of
    its reply, which the handlers that write credits never read. *)
Definition integer (v : JS.value) : option Z :=
  match v with
  | JS.Number n => if int4 n then Some n else None
  | _ => None
  end.

(** What the nullable [INTEGER] column [receipts.credits] makes of a value:
    a whole number of the range is stored; [undefined] and a function are
    left out of the JSON text and [NaN] is sent as [null], so the column is
    null; a number out of range, a string and an object refuse the row. *)
Definition nullable_integer (v : JS.value) : option (option Z) :=
  match v with
  | JS.Number n => if int4 n then Some (Some n) else None
  | JS.Undefined | JS.NaN | JS.Builtin => Some None
  | JS.Text | JS.Prototype => None
  end.

(** What an [INTEGER NOT NULL] column makes of a double: the product
    [parseFloat(value) * 100] is sent as JSON, so a double that is a whole
    number within the 32-bit range is stored, and any other one (a number
    with a fraction, one out of range, [NaN] and the infinities, which are
    sent as [null]) is refused. *)
Definition cents (a : JS.double) : option Z :=
  match JS.whole a with
  | Some n => if int4 n then Some n else None
  | None => None
  end.

Section Exec.
Context (ext : externals).

Definition exec {T} (o : op T) (w : world) : world * T :=
  match o in op T return world * T with
  | ConsoleLog l msg =>
      (World (store w) (rateLimitMap w) (clock w) (console w ++ [(l, msg)]), tt)
  | CheckRateLimit userId =>
      let '(m, ok) := RateLimit.checkRateLimit userId (clock w) (rateLimitMap w) in
      (World (store w) m (clock w) (console w), ok)
  | AuthGetUser token => (w, auth_users (store w) !! token)
  | SelectCredits _ userId => (w, user_credits (store w) !! userId)
  | UpsertCredits userId credits =>
      match integer credits with
      | Some n => (with_store (with_user_credits <[userId := n]>) w, tt)
      | None => (w, tt)
      end
  | InsertCreditTransaction userId amount reason capture_id amount_paid
      currency plan_id =>
      match integer amount with
      | Some n =>
          (with_store (add_credit_transaction
             (CreditTransaction userId n reason capture_id amount_paid
                currency plan_id)) w, tt)
      | None => (w, tt)
      end
  | InsertReceipt userId type amount currency credits capture_id =>
      match cents amount, nullable_integer credits with
      | Some n, Some c =>
          (with_store (add_receipt
             (Receipt userId type n currency c capture_id)) w, tt)
      | _, _ => (w, tt)
      end
  | InsertPaymentLog userId provider payment_id status amount currency =>
      match cents amount with
      | Some n =>
          (with_store (add_payment_log
             (PaymentLog userId provider payment_id status n currency)) w, tt)
      | None => (w, tt)
      end
  | InsertBatchJob userId operation status files options progress =>
      let row := BatchJob (length (batch_jobs (store w))) userId operation
                   status files options progress in
      (with_store (add_batch_job row) w, Some row)
  | RpcDeductCredits p_user_id p_amount p_reason =>
      (with_store (deduct_credits ext p_user_id p_amount p_reason) w, tt)
  | InsertJobQueue job_id job_type status =>
      (with_store (add_queue_row (QueueRow job_id job_type status)) w, tt)
  | DeductCreditsAtomic userId amount reason =>
      let '(d, r) := deductCreditsAtomic ext userId amount reason (store w) in
      (with_store (λ _, d) w, r)
  end.

(** A handler run to its end with nothing else running. *)
Fixpoint run {R} (p : prog R) (w : world) : world * (R + exn) :=
  match p with
  | Ret r => (w, inl r)
  | Throw e => (w, inr e)
  | Do o k => let '(w1, t) := exec o w in run (k t) w1
  end.

(** One turn of a handler: its synchronous code up to and including the
    next awaited request. *)
Fixpoint step {R} (p : prog R) (w : world) : world * prog R :=
  match p with
  | Do o k =>
      let '(w1, t) := exec o w in
      if awaited o then (w1, k t) else step (k t) w1
  | _ => (w, p)
  end.

(** Several handlers in flight; the schedule names, turn by turn, the
    handler that moves. *)
Fixpoint interleave {R} (schedule : list nat) (ps : list (prog R))
    (w : world) : world * list (prog R) :=
  match schedule with
  | [] => (w, ps)
  | i :: rest =>
      match ps !! i with
      | Some p =>
          let '(w1, p1) := step p w in
          interleave rest (<[i := p1]> ps) w1
      | None => interleave rest ps w
      end
  end.

End Exec.

(** The requests a handler puts to the store, in the order it issues them,
    for the replies that the given world produces. *)
Inductive request :=
| Request {T : Type} (o : op T).

Fixpoint requests (ext : externals) {R} (p : prog R) (w : world) : list request :=
  match p with
  | Do o k =>
      let '(w1, t) := exec ext o w in
      (if awaited o then [Request o] else []) ++ requests ext (k t) w1
  | _ => []
  end.

End Prog.

(** ** PayPal webhook ([src/app/api/webhooks/paypal/route.ts], first route) *)

Module Paypal.
Import Store Prog.

(** Credit packages *)
Definition CREDIT_PACKAGES : gmap string Z :=
  <["STARTER_PLAN" := 100]>
  (<["PRO_PLAN" := 500]>
  (<["BUSINESS_PLAN" := 2000]>
  (<["ENTERPRISE_PLAN" := 10000]> ∅))).

Record money := Money { value : string; currency_code : string }.

(** [event.resource] of a capture event: [custom_id] carries the user id
    and [invoice_id] the plan id. *)
Record capture := Capture {
  id : string;
  custom_id : option string;
  invoice_id : option string;
  amount : option money }.

Record event := Event { event_type : string; resource : option capture }.

(** The delivery: [parsed] is [JSON.parse(body)], absent when the body is
    not JSON; [verification_status] tells whether PayPal answers
    [SUCCESS] to the signature check. *)
Record delivery := Delivery {
  parsed : option event;
  verification_status : bool }.

Inductive body :=
| Received
| Failure (error : string).

Record response := Response { status : Z; json : body }.

(** [verifyPayPalWebhook]: the token and verification calls go to PayPal;
    building the verification request parses the body, and any exception
    is turned into [false]. *)
Definition verifyPayPalWebhook (d : delivery) : bool :=
  match parsed d with
  | Some _ => verification_status d
  | None => false
  end.

(** [handlePaymentCompleted].  The client of the store reports a refused
    write in its reply and does not throw, and the handler reads no reply to
    a write, so a refused upsert or insert is followed by the next one.  The
    receipt and the payment log are sent [parseFloat(amount.value) * 100].
    The closing console line is kept without the number of credits, whose
    text for an inherited member of the table is left to the engine. *)
Definition handlePaymentCompleted (ev : event) : prog unit :=
  catch
    (match resource ev with
     | None => Throw (TypeError "Cannot read properties of undefined")
     | Some capture =>
         match JS.present (custom_id capture), JS.present (invoice_id capture) with
         | Some userId, Some planId =>
             let creditsToAdd :=
               JS.or_else (JS.get CREDIT_PACKAGES planId) (JS.Number 0) in
             if JS.is_zero creditsToAdd then
               call (ConsoleLog Error ("Unknown plan ID: " ++ planId))
             else
               currentData ← call (SelectCredits "credits" userId);
               let currentCredits :=
                 JS.or_else (from_option JS.Number JS.Undefined currentData)
                   (JS.Number 0) in
               let newTotal := JS.add currentCredits creditsToAdd in
               call (UpsertCredits userId newTotal);;
               match amount capture with
               | None => Throw (TypeError "Cannot read properties of undefined")
               | Some paid =>
                   call (InsertCreditTransaction userId creditsToAdd
                           ("PayPal purchase: " ++ id capture) (id capture)
                           (value paid) (currency_code paid) planId);;
                   call (InsertReceipt userId "credit_purchase"
                           (JS.times_100 (JS.parseFloat (value paid)))
                           (currency_code paid) creditsToAdd (id capture));;
                   call (InsertPaymentLog userId "paypal" (id capture)
                           "completed"
                           (JS.times_100 (JS.parseFloat (value paid)))
                           (currency_code paid));;
                   call (ConsoleLog Info ("PayPal: Credits added for user " ++ userId))
               end
         | _, _ =>
             call (ConsoleLog Error "Missing user_id or plan_id in PayPal webhook")
         end
     end)
    (λ error,
       call (ConsoleLog Error "Error processing PayPal payment");;
       Throw error).

Definition handlePaymentFailed (ev : event) : prog unit :=
  catch
    (match resource ev with
     | None => Throw (TypeError "Cannot read properties of undefined")
     | Some capture =>
         match JS.present (custom_id capture) with
         | None => Ret tt
         | Some userId =>
             match amount capture with
             | None => Throw (TypeError "Cannot read properties of undefined")
             | Some paid =>
                 call (InsertPaymentLog userId "paypal" (id capture) "failed"
                         (JS.times_100 (JS.parseFloat (value paid)))
                         (currency_code paid));;
                 call (ConsoleLog Info ("PayPal payment failed: " ++ id capture))
             end
         end
     end)
    (λ error, call (ConsoleLog Error "Error logging PayPal payment failure")).

Definition POST (d : delivery) : prog response :=
  catch
    (let isValid := verifyPayPalWebhook d in
     if negb isValid then
       call (ConsoleLog Error "PayPal webhook signature verification failed");;
       Ret (Response 400 (Failure "Invalid signature"))
     else
       match parsed d with
       | None => Throw (SyntaxError "Unexpected token")
       | Some event =>
           (if String.eqb (event_type event) "PAYMENT.CAPTURE.COMPLETED" then
              handlePaymentCompleted event
            else if String.eqb (event_type event) "PAYMENT.CAPTURE.DENIED"
                    || String.eqb (event_type event) "PAYMENT.CAPTURE.DECLINED" then
              handlePaymentFailed event
            else
              call (ConsoleLog Info ("Unhandled PayPal event: " ++ event_type event)));;
           Ret (Response 200 Received)
       end)
    (λ error,
       call (ConsoleLog Error "PayPal webhook error");;
       Ret (Response 500 (Failure "Webhook handler failed"))).

(** The same delivery handled [n] times, one after the other. *)
Fixpoint deliveries (ext : externals) (n : nat) (d : delivery) (w : world)
    : world :=
  match n with
  | O => w
  | S n => deliveries ext n d (run ext (POST d) w).1
  end.

(** A verified completed capture for [userId] of a plan of the table. *)
Definition purchase (d : delivery) (c : capture) (userId planId : string)
    (credits : Z) (paid : money) : Prop :=
  verification_status d = true ∧
  parsed d = Some (Event "PAYMENT.CAPTURE.COMPLETED" (Some c)) ∧
  JS.present (custom_id c) = Some userId ∧
  JS.present (invoice_id c) = Some planId ∧
  CREDIT_PACKAGES !! planId = Some credits ∧
  amount c = Some paid.

(** The ledger row and the world a purchase leaves behind. *)
Definition ledger_row (c : capture) (userId planId : string) (credits : Z)
    (paid : money) : credit_transaction :=
  CreditTransaction userId credits ("PayPal purchase: " ++ id c) (id c)
    (value paid) (currency_code paid) planId.

(** The amount a capture is recorded with in [receipts] and
    [payment_logs]: [parseFloat(capture.amount.value) * 100], when the
    columns take it. *)
Definition amount_in_cents (paid : money) : option Z :=
  cents (JS.times_100 (JS.parseFloat (value paid))).

(** The receipt and the payment log of a purchase; both rows carry the same
    amount, so both are stored or both are refused. *)
Definition recorded (c : capture) (userId : string) (credits : Z)
    (paid : money) (d : db) : db :=
  match amount_in_cents paid with
  | Some n =>
      add_payment_log
        (PaymentLog userId "paypal" (id c) "completed" n (currency_code paid))
        (add_receipt
           (Receipt userId "credit_purchase" n (currency_code paid)
              (Some credits) (id c)) d)
  | None => d
  end.

(** The balance after the upsert of a purchase: the new total when the
    column takes it, the old balance when the total is out of range. *)
Definition credited (userId : string) (credits : Z) (d : db) : db :=
  let total := balance_of d userId + credits in
  if int4 total then with_user_credits <[userId := total]> d else d.

Definition purchased (c : capture) (userId planId : string) (credits : Z)
    (paid : money) (w : world) : world :=
  World
    (recorded c userId credits paid
       (add_credit_transaction (ledger_row c userId planId credits paid)
          (credited userId credits (store w))))
    (rateLimitMap w) (clock w)
    (app (console w) [(Info, "PayPal: Credits added for user " ++ userId)]).

(** The events on which a handler lets an exception out: a completed
    capture without [resource], or one that passes both guards and has no
    [amount].  [handlePaymentFailed] swallows its exceptions. *)
Definition throws (ev : event) : bool :=
  if String.eqb (event_type ev) "PAYMENT.CAPTURE.COMPLETED" then
    match resource ev with
    | None => true
    | Some c =>
        match JS.present (custom_id c), JS.present (invoice_id c) with
        | Some _, Some planId =>
            negb (JS.is_zero (JS.or_else (JS.get CREDIT_PACKAGES planId)
                                (JS.Number 0)))
            && bool_decide (amount c = None)
        | _, _ => false
        end
    end
  else false.

Definition status_of (d : delivery) : Z :=
  if negb (verifyPayPalWebhook d) then 400
  else match parsed d with
       | Some ev => if throws ev then 500 else 200
       | None => 500
       end.

(** A completed capture that the handler turns away at one of its two
    guards: an identifier is missing, or the plan is not a property of the
    table. *)
Definition turned_away (d : delivery) : Prop :=
  ∃ c,
    verification_status d = true ∧
    parsed d = Some (Event "PAYMENT.CAPTURE.COMPLETED" (Some c)) ∧
    (JS.present (custom_id c) = None ∨ JS.present (invoice_id c) = None ∨
     ∃ planId, JS.present (invoice_id c) = Some planId ∧
               JS.get CREDIT_PACKAGES planId = JS.Undefined).

End Paypal.

(** ** Credit deduction endpoint (second route of the same file) *)

Module Deduct.
Import Store Prog.

(** A value of the parsed request body. *)
Inductive json :=
| JNull
| JBool (b : bool)
| JNumber (q : Q)
| JString (s : string)
| JArray
| JObject.

(** [const { amount, reason } = body]; a field the body does not have is
    [None]. *)
Record payload := Payload { amount : option json; reason : option string }.

(** [parsed] is the body as [const { amount, reason } = body] receives it. *)
Record call_in := CallIn {
  authorization : option string;
  parsed : JS.parsed payload }.

Inductive body :=
| Failure (error : string)
| Refused (error : string) (remaining required : option Z)
| Deducted (remaining : option Z) (deducted : Q).

Record response := Response { status : Z; json_body : body }.

(** [!amount] *)
Definition falsy (v : option json) : bool :=
  match v with
  | None | Some JNull | Some (JBool false) => true
  | Some (JNumber q) => Qeq_bool q 0
  | Some (JString s) => String.eqb s ""
  | Some _ => false
  end.

(** [typeof amount !== 'number'] *)
Definition not_a_number (v : option json) : bool :=
  match v with Some (JNumber _) => false | _ => true end.

(** The number behind [amount] once the type test has passed. *)
Definition number_of (v : option json) : Q :=
  match v with Some (JNumber q) => q | _ => 0%Q end.

Definition POST (req : call_in) : prog response :=
  catch
    (match authorization req with
     | Some authHeader =>
         if String.prefix "Bearer " authHeader then
           let token := String.substring 7 (String.length authHeader - 7) authHeader in
           user ← call (AuthGetUser token);
           match user with
           | None => Ret (Response 401 (Failure "Unauthorized - Invalid token"))
           | Some user_id =>
               allowed ← call (CheckRateLimit user_id);
               if negb allowed then
                 Ret (Response 429 (Failure "Rate limit exceeded. Try again later."))
               else
                 match parsed req with
                 | JS.Threw => Throw (SyntaxError "Unexpected end of JSON input")
                 | JS.Null =>
                     Throw (TypeError "Cannot destructure property 'amount' of 'body' as it is null.")
                 | JS.Fields body =>
                     let amount := amount body in
                     if falsy amount || not_a_number amount
                        || Qle_bool (number_of amount) 0 then
                       Ret (Response 400
                              (Failure "Invalid amount. Must be a positive number."))
                     else if negb (Qle_bool (number_of amount) 1000) then
                       Ret (Response 400
                              (Failure "Amount exceeds maximum (1000 credits per transaction)"))
                     else
                       result ← call (DeductCreditsAtomic user_id (number_of amount)
                                        (default "Credit usage" (JS.present (reason body))));
                       if negb (success result) then
                         Ret (Response 402
                                (Refused (error result) (remaining result)
                                   (required result)))
                       else
                         Ret (Response 200
                                (Deducted (remaining result) (number_of amount)))
                 end
           end
         else Ret (Response 401 (Failure "Unauthorized - No auth token provided"))
     | None => Ret (Response 401 (Failure "Unauthorized - No auth token provided"))
     end)
    (λ error,
       call (ConsoleLog Error ("Credit deduction error: " ++ message error));;
       Ret (Response 500 (Failure "Internal server error. Please try again."))).

(** A request that carries the bearer token of [user]. *)
Definition signed_in (req : call_in) (w : world) (user : string) : Prop :=
  ∃ header,
    authorization req = Some header ∧
    String.prefix "Bearer " header = true ∧
    auth_users (store w)
      !! String.substring 7 (String.length header - 7) header = Some user.

(** An amount that is a number above 0 and at most 1000. *)
Definition acceptable (v : option json) : Prop :=
  ∃ q, v = Some (JNumber q) ∧ (0 < q)%Q ∧ (q <= 1000)%Q.

(** [reason || 'Credit usage'] *)
Definition reason_of (body : payload) : string :=
  default "Credit usage" (JS.present (reason body)).

End Deduct.

(** ** Batch submission ([src/app/api/batch/route.ts], [POST]) *)

Module Batch.
Import Store Prog.

Definition CREDIT_COSTS : gmap string Z :=
  <["merge" := 1]>
  (<["split" := 1]>
  (<["compress" := 1]>
  (<["convert" := 2]>
  (<["watermark" := 1]>
  (<["password_protect" := 1]>
  (<["remove_password" := 1]>
  (<["rotate" := 1]>
  (<["extract_pages" := 1]>
  (<["add_page_numbers" := 1]>
  (<["ocr" := 3]> ∅)))))))))).

(** [const { operation, files, options } = body] *)
Record payload := Payload {
  operation : option string;
  files : option (list string);
  options : option (list (string * string)) }.

(** [parsed] is the body as the destructuring receives it. *)
Record submission := Submission {
  authorization : option string;
  parsed : JS.parsed payload }.

Inductive body :=
| Failure (error : string)
| Insufficient (error : string) (required available : JS.value)
| Created (job : batch_job) (credits_used : JS.value) (message : string).

Record response := Response { status : Z; json : body }.

Definition nat_to_string (n : nat) : string := pretty.pretty n.

(** [const creditCost = CREDIT_COSTS[operation] * files.length] *)
Definition creditCost (operation : string) (files : list string) : JS.value :=
  JS.mul (JS.get CREDIT_COSTS operation) (JS.Number (Z.of_nat (length files))).

Definition POST (req : submission) : prog response :=
  catch
    (match authorization req with
     | Some authHeader =>
         if String.prefix "Bearer " authHeader then
           let token := String.substring 7 (String.length authHeader - 7) authHeader in
           user ← call (AuthGetUser token);
           match user with
           | None => Ret (Response 401 (Failure "Invalid token"))
           | Some user_id =>
               match parsed req with
               | JS.Threw => Throw (SyntaxError "Unexpected end of JSON input")
               | JS.Null =>
                   Throw (TypeError "Cannot destructure property 'operation' of 'body' as it is null.")
               | JS.Fields body =>
                   match JS.present (operation body), files body with
                   | Some operation, Some (f :: fs) =>
                       let files := f :: fs in
                       if negb (JS.truthy (JS.get CREDIT_COSTS operation)) then
                         Ret (Response 400
                              (Failure "Invalid operation. Valid: merge, split, compress, convert, watermark, password_protect, remove_password, rotate, extract_pages, add_page_numbers, ocr"))
                       else
                         let creditCost := creditCost operation files in
                         creditData ← call (SelectCredits "balance" user_id);
                         let balance :=
                           JS.or_else (from_option JS.Number JS.Undefined creditData)
                             (JS.Number 0) in
                         if JS.lt balance creditCost then
                           Ret (Response 402
                                  (Insufficient "Insufficient credits" creditCost balance))
                         else
                           created ← call (InsertBatchJob user_id operation "pending"
                                             (map (λ f, Build_BatchFile f pending) files)
                                             (default [] (options body)) 0);
                           match created with
                           | None => Throw (StoreError "insert failed")
                           | Some createdJob =>
                               call (RpcDeductCredits user_id creditCost
                                       ("Batch " ++ operation ++ ": "
                                        ++ nat_to_string (length files) ++ " files"));;
                               call (InsertJobQueue (job_id createdJob) "batch_pdf" "pending");;
                               Ret (Response 200
                                      (Created createdJob creditCost
                                         ("Processing " ++ nat_to_string (length files)
                                          ++ " files.")))
                           end
                   | _, _ => Ret (Response 400 (Failure "operation and files required"))
                   end
               end
           end
         else Ret (Response 401 (Failure "Unauthorized"))
     | None => Ret (Response 401 (Failure "Unauthorized"))
     end)
    (λ error,
       call (ConsoleLog Error "Batch job error");;
       Ret (Response 500 (Failure (message error)))).

(** A submission that is authenticated as [user] and carries a known
    operation and a non-empty list of files. *)
Definition validated (req : submission) (w : world) (user operation : string)
    (files : list string) (unit : Z) : Prop :=
  ∃ header body,
    authorization req = Some header ∧
    String.prefix "Bearer " header = true ∧
    auth_users (store w)
      !! String.substring 7 (String.length header - 7) header = Some user ∧
    parsed req = JS.Fields body ∧
    JS.present (Batch.operation body) = Some operation ∧
    Batch.files body = Some files ∧
    files ≠ [] ∧
    CREDIT_COSTS !! operation = Some unit.

(** The row a submission asks the store to persist. *)
Definition job_of (w : world) (user operation : string) (files : list string)
    (options : list (string * string)) : batch_job :=
  BatchJob (length (batch_jobs (store w))) user operation "pending"
    (map (λ f, Build_BatchFile f pending) files) options 0.

Definition reason_of (operation : string) (files : list string) : string :=
  "Batch " ++ operation ++ ": " ++ nat_to_string (length files) ++ " files".

Definition options_of (req : submission) : list (string * string) :=
  default [] (JS.fields_of (parsed req) ≫= options).

End Batch.

(** ** Credit Ledger *)

Module Ledger.

(** Modelled from the spec: the Credit Ledger of section 4.1 ([reserve],
    [credit], [reconcile] keyed by an idempotency key) and its
    [LedgerEntry] of section 3.  The sources at hand only call
    [deduct_credits] and [deductCreditsAtomic], whose bodies are elsewhere,
    and hold no reconciliation step. *)
Record LedgerEntry := Entry {
  account_id : string;
  delta : Z;
  reason : string;
  idempotency_key : string }.

Record ledger := Ledger {
  balances : gmap string Z;
  entries : list LedgerEntry;
  anomalies : list (string * Z * Z) }.

Inductive outcome :=
| Ok (new_balance : Z)
| InsufficientFunds (balance required : Z)
| AlreadyApplied (prior : LedgerEntry)
| Reconciled (refunded : Z).

Definition balance (l : ledger) (account : string) : Z :=
  default 0 (balances l !! account).

Definition applied (l : ledger) (key : string) : option LedgerEntry :=
  List.find (λ e, String.eqb (idempotency_key e) key) (entries l).

(** Modelled from the spec: one isolated transaction, in which the entry
    is appended and the balance moved by its delta. *)
Definition post (e : LedgerEntry) (l : ledger) : ledger :=
  Ledger (<[account_id e := balance l (account_id e) + delta e]> (balances l))
    (entries l ++ [e]) (anomalies l).

(** Modelled from the spec: [reserve] checks [balance >= amount], writes an
    entry with [delta = -amount] and decrements the balance, unless the key
    already has an entry. *)
Definition reserve (account : string) (amount : Z) (key reason : string)
    (l : ledger) : ledger * outcome :=
  match applied l key with
  | Some prior => (l, AlreadyApplied prior)
  | None =>
      if amount <=? balance l account then
        (post (Entry account (- amount) reason key) l,
         Ok (balance l account - amount))
      else (l, InsufficientFunds (balance l account) amount)
  end.

(** Modelled from the spec: [credit] has the same idempotency discipline,
    [delta = +amount] and no floor check. *)
Definition credit (account : string) (amount : Z) (key reason : string)
    (l : ledger) : ledger * outcome :=
  match applied l key with
  | Some prior => (l, AlreadyApplied prior)
  | None =>
      (post (Entry account amount reason key) l, Ok (balance l account + amount))
  end.

(** Modelled from the spec: [reconcile] refunds [reserved - actual] through
    the path of [credit] when [actual < reserved]; [actual > reserved] is
    recorded as an anomaly and charges nothing.  [account] is the account
    of the job. *)
Definition reconcile (job_id account : string) (reserved actual : Z)
    (key : string) (l : ledger) : ledger * outcome :=
  if actual <? reserved then
    let '(l1, _) := credit account (reserved - actual) key "refund" l in
    (l1, Reconciled (reserved - actual))
  else if reserved <? actual then
    (Ledger (balances l) (entries l) (anomalies l ++ [(job_id, reserved, actual)]),
     Reconciled 0)
  else (l, Reconciled 0).

Inductive operation :=
| Reserve (account : string) (amount : Z) (key reason : string)
| Credit (account : string) (amount : Z) (key reason : string)
| Reconcile (job_id account : string) (reserved actual : Z) (key : string).

Definition apply (o : operation) (l : ledger) : ledger :=
  match o with
  | Reserve a n k r => fst (reserve a n k r l)
  | Credit a n k r => fst (credit a n k r l)
  | Reconcile j a res act k => fst (reconcile j a res act k l)
  end.

Definition apply_all (os : list operation) (l : ledger) : ledger :=
  fold_left (λ l o, apply o l) os l.

(** Modelled from the spec: the contract of sections 4.1 and 6, amounts
    are positive integers. *)
Definition well_formed (o : operation) : Prop :=
  match o with
  | Reserve _ n _ _ | Credit _ n _ _ => 0 < n
  | Reconcile _ _ _ _ _ => True
  end.

Definition non_negative (l : ledger) : Prop :=
  ∀ account, 0 ≤ balance l account.

Definition empty : ledger := Ledger ∅ [] [].

End Ledger.

(** ** A stand-in for the two callees that are not in the sources *)

Module Reference.
Import Store.

(** Modelled from the spec: [deduct_credits] as the ledger's [reserve]
    without a key, an atomic check of [balance >= amount] followed by the
    decrement; a refused deduction leaves the row as it is. *)
Definition deduct_credits (userId : string) (amount : JS.value)
    (reason : string) (d : db) : db :=
  match amount with
  | JS.Number n =>
      if n <=? balance_of d userId then
        with_user_credits <[userId := balance_of d userId - n]> d
      else d
  | _ => d
  end.

(** Modelled from the spec: [deductCreditsAtomic] as the same atomic
    check-and-decrement on whole amounts, reporting the balance left or
    the balance and the amount required. *)
Definition deductCreditsAtomic (userId : string) (amount : Q)
    (reason : string) (d : db) : db * deduct_result :=
  let n := Qnum amount in
  if Pos.eqb (Qden amount) 1 && (n <=? balance_of d userId) then
    (with_user_credits <[userId := balance_of d userId - n]> d,
     DeductResult true "" (Some (balance_of d userId - n)) None)
  else
    (d, DeductResult false "Insufficient credits"
          (Some (balance_of d userId)) (Some n)).

Definition ext : externals := Externals deduct_credits deductCreditsAtomic.

Definition empty_db : db := Db ∅ [] [] [] [] [] ∅.

Definition fresh (d : db) : world := World d ∅ 0 [].

End Reference.

(** ** The three entry points as one service *)

Module Service.
Import Store Prog.

(** A call on the service at a clock reading. *)
Inductive invocation :=
| Submit (now : Z) (req : Batch.submission)
| Spend (now : Z) (req : Deduct.call_in)
| Notify (now : Z) (d : Paypal.delivery).

Definition at_time (now : Z) (w : world) : world :=
  World (store w) (rateLimitMap w) now (console w).

Definition handle (ext : externals) (i : invocation) (w : world) : world :=
  match i with
  | Submit now req => (run ext (Batch.POST req) (at_time now w)).1
  | Spend now req => (run ext (Deduct.POST req) (at_time now w)).1
  | Notify now d => (run ext (Paypal.POST d) (at_time now w)).1
  end.

(** Invocations handled one after the other. *)
Definition handle_all (ext : externals) (calls : list invocation) (w : world)
    : world :=
  fold_left (λ w i, handle ext i w) calls w.

(** No balance below zero. *)
Definition solvent (d : db) : Prop := ∀ user, 0 ≤ balance_of d user.

End Service.

(** ** Vocabulary of the statements *)

Module Trace.
Import Store Prog.

(** The amount a request asks the store to take from a balance. *)
Definition reservation (r : request) : option JS.value :=
  match r with
  | Request o =>
      match o with
      | RpcDeductCredits _ p_amount _ => Some p_amount
      | _ => None
      end
  end.

(** The status a request asks the store to persist a batch job with. *)
Definition persisted_job (r : request) : option string :=
  match r with
  | Request o =>
      match o with
      | InsertBatchJob _ _ status _ _ _ => Some status
      | _ => None
      end
  end.

(** A request that takes credits from a balance. *)
Definition deducts (r : request) : bool :=
  match r with
  | Request o =>
      match o with
      | RpcDeductCredits _ _ _ | DeductCreditsAtomic _ _ _ => true
      | _ => false
      end
  end.

(** A request that reads a balance, and one that writes a balance it was
    handed. *)
Definition reads_balance (r : request) : bool :=
  match r with
  | Request o => match o with SelectCredits _ _ => true | _ => false end
  end.

Definition writes_balance (r : request) : bool :=
  match r with
  | Request o => match o with UpsertCredits _ _ => true | _ => false end
  end.

Fixpoint first_index {A} (f : A → bool) (l : list A) : option nat :=
  match l with
  | [] => None
  | x :: rest => if f x then Some 0%nat else S <$> first_index f rest
  end.

(** The first reservation comes before the first job row. *)
Definition reserved_before_persisted (tr : list request) : bool :=
  match first_index (λ r, bool_decide (is_Some (reservation r))) tr,
        first_index (λ r, bool_decide (is_Some (persisted_job r))) tr with
  | Some i, Some j => (i <? j)%nat
  | _, _ => false
  end.

(** A balance is read by one request and set by a later one. *)
Definition read_then_write (tr : list request) : bool :=
  match first_index reads_balance tr, first_index writes_balance tr with
  | Some i, Some j => (i <? j)%nat
  | _, _ => false
  end.

End Trace.

(** ** Statements under examination *)

Module Stated.
Import Store Prog.

(** Reservation first: when the submission is answered with success, a
    reservation was requested before the job row, and the row was written
    in state [reserved] with one pending file per input. *)
Definition reserve_then_persist (ext : externals) (req : Batch.submission)
    (w : world) : Prop :=
  ∀ job used msg,
    (run ext (Batch.POST req) w).2
      = inl (Batch.Response 200 (Batch.Created job used msg)) →
    Trace.reserved_before_persisted (requests ext (Batch.POST req) w) = true ∧
    job_status job = "reserved" ∧
    Forall (λ f, status f = pending) (job_files job).

(** Exactly once: however often the delivery is handled, the ledger gains
    one row and the balance rises once by the credits of the package. *)
Definition credited_once (ext : externals) (d : Paypal.delivery) (w : world)
    (times : nat) (userId : string) (credits : Z) : Prop :=
  let w1 := Paypal.deliveries ext times d w in
  length (credit_transactions (store w1))
    = S (length (credit_transactions (store w))) ∧
  balance_of (store w1) userId = balance_of (store w) userId + credits.

(** The event a plan of the table does not cover is rejected, and a
    rejected event is answered with a 4xx status. *)
Definition rejected_gets_4xx (ext : externals) (d : Paypal.delivery)
    (w : world) : Prop :=
  Paypal.turned_away d →
  ∃ r, (run ext (Paypal.POST d) w).2 = inl r ∧
       400 ≤ Paypal.status r ∧ Paypal.status r ≤ 499.

(** Every signed-in request with an amount that is not acceptable is
    answered 400 and deducts nothing. *)
Definition invalid_amount_gets_400 (ext : externals) (req : Deduct.call_in)
    (w : world) : Prop :=
  ∀ user body,
    Deduct.signed_in req w user →
    Deduct.parsed req = JS.Fields body →
    ¬ Deduct.acceptable (Deduct.amount body) →
    ∃ r, (run ext (Deduct.POST req) w).2 = inl r ∧
         Deduct.status r = 400 ∧
         store (run ext (Deduct.POST req) w).1 = store w.

End Stated.

(** ** Concrete processes and requests *)

Module Sample.
Import Store Prog.

(** One signed-in user holding five credits. *)
Definition accounts : db :=
  Db {["user-1" := 5]} [] [] [] [] [] {["tok-1" := "user-1"]}.

Definition process : world := World accounts ∅ 0 [].

Definition submit (operation : string) (files : list string) : Batch.submission :=
  Batch.Submission (Some "Bearer tok-1")
    (JS.Fields (Batch.Payload (Some operation) (Some files) None)).

Definition merge_three : Batch.submission :=
  submit "merge" ["a.pdf"; "b.pdf"; "c.pdf"].

Definition merge_two : Batch.submission := submit "merge" ["a.pdf"; "b.pdf"].

Definition ocr_two : Batch.submission := submit "ocr" ["a.pdf"; "b.pdf"].

(** A completed capture of the starter package for [user-1]. *)
Definition capture_of (capture_id plan : string) : Paypal.delivery :=
  Paypal.Delivery
    (Some (Paypal.Event "PAYMENT.CAPTURE.COMPLETED"
             (Some (Paypal.Capture capture_id (Some "user-1") (Some plan)
                      (Some (Paypal.Money "9.99" "USD"))))))
    true.

Definition cap_123 : Paypal.delivery := capture_of "cap_123" "STARTER_PLAN".

Definition deduct (amount : option Deduct.json) : Deduct.call_in :=
  Deduct.CallIn (Some "Bearer tok-1") (JS.Fields (Deduct.Payload amount None)).

(** The process after ten deduction requests of [user-1] at one clock
    reading. *)
Definition ten_requests_in : world :=
  Nat.iter 10
    (λ w, (run Reference.ext (Deduct.POST (deduct (Some (Deduct.JNumber 1)))) w).1)
    process.

(** Two handlers in flight, taking turns at every await. *)
Definition alternate : list nat := [0; 1; 0; 1; 0; 1; 0; 1; 0; 1; 0; 1]%nat.

Definition mystery_plan : Paypal.delivery := capture_of "cap_404" "MYSTERY_PLAN".

Definition inherited_plan : Paypal.delivery := capture_of "cap_9" "constructor".

End Sample.

(** ** Batch job status ([src/app/api/batch/route.ts], [GET]) *)

Module BatchGet.
Import Stdlib.Strings.Ascii Store.

(** [Object.entries(CREDIT_COSTS)]: the own properties in the order the
    literal lists them. *)
Definition CREDIT_COSTS_entries : list (string * Z) :=
  [ ("merge", 1); ("split", 1); ("compress", 1); ("convert", 2);
    ("watermark", 1); ("password_protect", 1); ("remove_password", 1);
    ("rotate", 1); ("extract_pages", 1); ("add_page_numbers", 1); ("ocr", 3) ].

Definition descriptions : list (string * string) :=
  [ ("merge", "Combine multiple PDFs into one document");
    ("split", "Split PDF into individual pages or ranges");
    ("compress", "Reduce PDF file size while maintaining quality");
    ("convert", "Convert PDFs to/from other formats (Word, Image, etc)");
    ("watermark", "Add text or image watermarks to PDFs");
    ("password_protect", "Add password protection to PDFs");
    ("remove_password", "Remove password from protected PDFs");
    ("rotate", "Rotate PDF pages (90°, 180°, 270°)");
    ("extract_pages", "Extract specific pages from PDFs");
    ("add_page_numbers", "Add page numbers to PDF documents");
    ("ocr", "Extract text from scanned PDFs using OCR") ].

(** [getOperationDescription], on the operations of the table. *)
Definition getOperationDescription (op : string) : option string :=
  snd <$> List.find (λ e, String.eqb (fst e) op) descriptions.

(** [\w] of the regular expressions: a letter, a digit or the underscore. *)
Definition word_char (c : Ascii.ascii) : bool :=
  let n := Ascii.nat_of_ascii c in
  ((97 <=? n) && (n <=? 122) || (65 <=? n) && (n <=? 90)
   || (48 <=? n) && (n <=? 57) || (n =? 95))%nat.

(** [l.toUpperCase()] on one character of an operation name. *)
Definition upper (c : Ascii.ascii) : Ascii.ascii :=
  let n := Ascii.nat_of_ascii c in
  if ((97 <=? n) && (n <=? 122))%nat then Ascii.ascii_of_nat (n - 32) else c.

(** [s.replace(/_/g, ' ')] *)
Fixpoint spaced (s : string) : string :=
  match s with
  | EmptyString => EmptyString
  | String c rest =>
      String (if Ascii.eqb c "_"%char then " "%char else c) (spaced rest)
  end.

(** [s.replace(/\b\w/g, l => l.toUpperCase())]: a word character is put in
    upper case when no word character stands before it.  [inside] tells
    whether the character before is a word character. *)
Fixpoint capitalized (inside : bool) (s : string) : string :=
  match s with
  | EmptyString => EmptyString
  | String c rest =>
      String (if word_char c && negb inside then upper c else c)
        (capitalized (word_char c) rest)
  end.

(** [op.replace(/_/g, ' ').replace(/\b\w/g, l => l.toUpperCase())] *)
Definition display_name (op : string) : string := capitalized false (spaced op).

Record operation_entry := OperationEntry {
  entry_id : string;
  entry_name : string;
  credit_cost : Z;
  description : option string }.

(** The query: the [authorization] header and the [id] and [action] search
    parameters; an [id] that is absent or empty is [None]. *)
Record query := Query {
  authorization : option string;
  id : option nat;
  action : option string }.

Inductive body :=
| Failure (error : string)
| Operations (operations : list operation_entry)
| Job (job : batch_job)
| Jobs (jobs : list batch_job).

Record response := Response { status : Z; json : body }.

Definition owned (user : string) (job : batch_job) : bool :=
  String.eqb (job_user_id job) user.

(** The handler only reads; it is given as a function of the database it
    reads.  [.order('created_at', { ascending: false })] is the reverse of
    the order of insertion, rows being stamped when they are inserted, and
    [.single()] reports an error unless exactly one row matches. *)
Definition GET (req : query) (d : db) : response :=
  match authorization req with
  | Some authHeader =>
      if String.prefix "Bearer " authHeader then
        let token := String.substring 7 (String.length authHeader - 7) authHeader in
        match auth_users d !! token with
        | None => Response 401 (Failure "Invalid token")
        | Some user =>
            let action := default "list" (JS.present (action req)) in
            if String.eqb action "operations" then
              Response 200
                (Operations
                   (map (λ e, OperationEntry (fst e) (display_name (fst e)) (snd e)
                                (getOperationDescription (fst e)))
                      CREDIT_COSTS_entries))
            else
              match id req with
              | Some jobId =>
                  match List.filter (λ j, Nat.eqb (job_id j) jobId && owned user j)
                          (batch_jobs d) with
                  | [data] => Response 200 (Job data)
                  | _ => Response 404 (Failure "Job not found")
                  end
              | None =>
                  Response 200
                    (Jobs (take 50 (rev (List.filter (owned user) (batch_jobs d)))))
              end
        end
      else Response 401 (Failure "Unauthorized")
  | None => Response 401 (Failure "Unauthorized")
  end.

Definition underscore : ascii := "_"%char.

(** The characters of a string. *)
Fixpoint chars (s : string) : list ascii :=
  match s with
  | EmptyString => []
  | String c rest => c :: chars rest
  end.

(** Job rows carry the id the store gave them: the row at position [i] has
    id [i]. *)
Definition allocated (d : db) : Prop :=
  ∀ i job, batch_jobs d !! i = Some job → job_id job = i.

End BatchGet.

(** ** Further vocabulary *)

Module More.
Import Store Prog.

(** The user behind an [authorization] header, if any: the header has to
    start with [Bearer ] and the rest has to be a token of the session
    table. *)
Definition user_of (authorization : option string) (d : db) : option string :=
  match authorization with
  | Some header =>
      if String.prefix "Bearer " header then
        auth_users d !! String.substring 7 (String.length header - 7) header
      else None
  | None => None
  end.

(** The sum of the ledger rows of one user. *)
Definition ledger_total (d : db) (user : string) : Z :=
  foldr (λ r acc, if String.eqb (tx_user_id r) user then tx_amount r + acc else acc)
    0 (credit_transactions d).

(** Deliveries handled one after the other. *)
Definition deliver_all (ext : externals) (ds : list Paypal.delivery) (w : world)
    : world :=
  fold_left (λ w d, (run ext (Paypal.POST d) w).1) ds w.

(** The balance of [user] is within the range of its column and stays
    there over [n] more purchases of the largest package, 10000 credits. *)
Definition room_for (n : nat) (d : db) (user : string) : Prop :=
  in_int4 (balance_of d user)
  ∧ in_int4 (balance_of d user + Z.of_nat n * 10000).

(** Every capture of the delivery carries its [amount]. *)
Definition has_amount (d : Paypal.delivery) : Prop :=
  ∀ ev c, Paypal.parsed d = Some ev → Paypal.resource ev = Some c →
    is_Some (Paypal.amount c).

(** A failed-payment event. *)
Definition failed_payment (ev : Paypal.event) : Prop :=
  Paypal.event_type ev = "PAYMENT.CAPTURE.DENIED"
  ∨ Paypal.event_type ev = "PAYMENT.CAPTURE.DECLINED".

(** The counters of the rate limiter stay between 1 and the limit. *)
Definition counters_in_range (m : gmap string RateLimit.limit) : Prop :=
  ∀ u l, m !! u = Some l →
    1 ≤ RateLimit.count l ∧ RateLimit.count l ≤ RateLimit.RATE_LIMIT.

(** The external procedure leaves the job table and the sessions alone. *)
Definition keeps_jobs (ext : externals) : Prop :=
  ∀ user amount reason d,
    batch_jobs (deduct_credits ext user amount reason d) = batch_jobs d ∧
    auth_users (deduct_credits ext user amount reason d) = auth_users d.

End More.

(** * Properties *)

(** ** Rate limiter *)

Section RateLimitFacts.
Import RateLimit.

Lemma checkRateLimit_opens u now m :
  opens_window u now m →
  checkRateLimit u now m = (<[u := Limit 1 (now + RATE_WINDOW)]> m, true).
Proof.
  unfold opens_window, checkRateLimit.
  destruct (m !! u) as [l|]; [|done].
  intros H. by rewrite (proj2 (Z.gtb_lt _ _) H).
Qed.

(** Inside a window the verdict depends on the counter alone. *)
Lemma checkRateLimit_inside u now m c r :
  m !! u = Some (Limit c r) → now ≤ r →
  checkRateLimit u now m =
    if c >=? RATE_LIMIT then (m, false)
    else (<[u := Limit (c + 1) r]> m, true).
Proof.
  intros Hm Hnow. unfold checkRateLimit. rewrite Hm. simpl.
  destruct (now >? r) eqn:E; [|done].
  apply Z.gtb_lt in E. lia.
Qed.

(** A call leaves the entries of the other identities alone. *)
Lemma checkRateLimit_other u v now m :
  u ≠ v → (checkRateLimit v now m).1 !! u = m !! u.
Proof.
  intros Hne. unfold checkRateLimit.
  destruct (m !! v) as [l|]; simpl.
  - destruct (now >? resetAt l); simpl; [by rewrite lookup_insert_ne|].
    destruct (count l >=? RATE_LIMIT); simpl; [done|by rewrite lookup_insert_ne].
  - by rewrite lookup_insert_ne.
Qed.

(** With counter [c] and every later call of [u] inside the window, [u] is
    allowed [10 - c] more times and refused afterwards; the window end
    does not move. *)
Lemma serve_inside u r calls : ∀ m c,
  m !! u = Some (Limit c r) →
  Forall (λ t, t ≤ r) (times u calls) →
  ∃ c',
    (serve calls m).1 !! u = Some (Limit c' r) ∧
    verdicts u (serve calls m).2 =
      (replicate (Nat.min (Z.to_nat (RATE_LIMIT - c)) (length (times u calls))) true
       ++ replicate (length (times u calls) - Z.to_nat (RATE_LIMIT - c)) false)%list.
Proof.
  induction calls as [|[v t] calls IH]; intros m c Hm Hts; simpl in *.
  - exists c. split; [done|]. by rewrite Nat.min_0_r.
  - destruct (checkRateLimit v t m) as [m1 ok] eqn:Hstep.
    destruct (serve calls m1) as [m2 out] eqn:Hrest. simpl.
    case_bool_decide as Hv.
    + subst v. apply Forall_cons in Hts as [Ht Hts].
      rewrite (checkRateLimit_inside _ _ _ _ _ Hm Ht) in Hstep.
      destruct (c >=? RATE_LIMIT) eqn:Hc.
      * injection Hstep as <- <-.
        destruct (IH m c Hm Hts) as (c' & Hc' & Hout). rewrite Hrest in Hc', Hout.
        exists c'. split; [done|]. simpl in Hout. rewrite Hout.
        apply Z.geb_le in Hc.
        replace (Z.to_nat (RATE_LIMIT - c)) with 0%nat by lia.
        simpl. by rewrite Nat.sub_0_r.
      * injection Hstep as <- <-.
        assert (Hm1 : <[u := Limit (c + 1) r]> m !! u = Some (Limit (c + 1) r))
          by apply lookup_insert_eq.
        destruct (IH _ _ Hm1 Hts) as (c' & Hc' & Hout). rewrite Hrest in Hc', Hout.
        exists c'. split; [done|]. simpl in Hout. rewrite Hout.
        assert (c < RATE_LIMIT) by (rewrite Z.geb_leb in Hc; apply Z.leb_gt in Hc; lia).
        replace (Z.to_nat (RATE_LIMIT - c)) with (S (Z.to_nat (RATE_LIMIT - (c + 1)))) by lia.
        done.
    + assert (Hm1 : m1 !! u = Some (Limit c r)).
      { pose proof (checkRateLimit_other u v t m) as Ho.
        rewrite Hstep in Ho. simpl in Ho. rewrite Ho; [done|congruence]. }
      destruct (IH _ _ Hm1 Hts) as (c' & Hc' & Hout). rewrite Hrest in Hc', Hout.
      exists c'. split; done.
Qed.

End RateLimitFacts.

(** C9.  An identity whose call at [t0] opens a window is allowed by that
    call; of its later calls up to the reset time [t0 + 60000], whatever other
    identities do in between, the next nine are allowed and all further ones
    are refused, so the 11th call of the window is refused; and its first call
    after the reset time is allowed and leaves a fresh entry with counter 1. *)
Theorem rate_limit_fixed_window (u : string) (t0 : Z)
    (m : gmap string RateLimit.limit) (calls : list (string * Z)) :
  RateLimit.opens_window u t0 m →
  Forall (λ t, t ≤ t0 + RateLimit.RATE_WINDOW) (RateLimit.times u calls) →
  let first := RateLimit.checkRateLimit u t0 m in
  let later := RateLimit.serve calls first.1 in
  let n := length (RateLimit.times u calls) in
  first.2 = true ∧
  RateLimit.verdicts u later.2
    = (replicate (Nat.min 9 n) true ++ replicate (n - 9) false)%list ∧
  ∀ t, t0 + RateLimit.RATE_WINDOW < t →
    RateLimit.checkRateLimit u t later.1 =
      (<[u := RateLimit.Limit 1 (t + RateLimit.RATE_WINDOW)]> later.1, true).
Proof.
  intros Hopen Hts. simpl.
  rewrite (checkRateLimit_opens _ _ _ Hopen). simpl.
  split; [done|].
  destruct (serve_inside u (t0 + RateLimit.RATE_WINDOW) calls
              (<[u := RateLimit.Limit 1 (t0 + RateLimit.RATE_WINDOW)]> m) 1
              (lookup_insert_eq _ _ _) Hts) as (c' & Hc' & Hv).
  split; [exact Hv|].
  intros t Ht. apply checkRateLimit_opens.
  unfold RateLimit.opens_window. rewrite Hc'. simpl. lia.
Qed.

(** Eleven calls of one identity within a minute: ten allowed, the 11th
    refused, and the call after the reset time allowed again. *)
Lemma rate_limit_fixed_window_witness :
  let calls := map (λ k, ("user-1", 1000 + k)) [1; 2; 3; 4; 5; 6; 7; 8; 9; 60000] in
  let first := RateLimit.checkRateLimit "user-1" 1000 ∅ in
  let later := RateLimit.serve calls first.1 in
  first.2 = true ∧
  RateLimit.verdicts "user-1" later.2 =
    [true; true; true; true; true; true; true; true; true; false] ∧
  ∀ t, 1000 + RateLimit.RATE_WINDOW < t →
    RateLimit.checkRateLimit "user-1" t later.1 =
      (<["user-1" := RateLimit.Limit 1 (t + RateLimit.RATE_WINDOW)]> later.1, true).
Proof.
  apply (rate_limit_fixed_window "user-1" 1000 ∅
           (map (λ k, ("user-1", 1000 + k)) [1; 2; 3; 4; 5; 6; 7; 8; 9; 60000])).
  - exact I.
  - repeat constructor; vm_compute; discriminate.
Defined.

(** ** Running programs *)

Section RunFacts.
Import Store Prog.
Context (ext : externals).

Lemma run_bind {A B} (p : prog A) (f : A → prog B) w :
  run ext (p ≫= f) w =
    match run ext p w with
    | (w1, inl a) => run ext (f a) w1
    | (w1, inr e) => (w1, inr e)
    end.
Proof.
  revert w. induction p as [a|e|T o k IH]; intros w; simpl; try done.
  destruct (exec ext o w) as [w1 t]. apply IH.
Qed.

Lemma run_catch {A} (p : prog A) (h : exn → prog A) w :
  run ext (catch p h) w =
    match run ext p w with
    | (w1, inl a) => (w1, inl a)
    | (w1, inr e) => run ext (h e) w1
    end.
Proof.
  revert w. induction p as [a|e|T o k IH]; intros w; simpl; try done.
  destruct (exec ext o w) as [w1 t]. apply IH.
Qed.

(** [data?.credits || 0] is the balance, 0 when the row is missing. *)
Lemma or_else_balance (o : option Z) :
  JS.or_else (from_option JS.Number JS.Undefined o) (JS.Number 0)
  = JS.Number (default 0 o).
Proof.
  destruct o as [n|]; [|done]. unfold JS.or_else. simpl.
  destruct (Z.eqb_spec n 0); by subst.
Qed.

Lemma or_else_number (n : Z) :
  JS.or_else (JS.Number n) (JS.Number 0) = JS.Number n.
Proof. apply (or_else_balance (Some n)). Qed.

End RunFacts.

(** ** Batch submission *)

Section BatchFacts.
Import Store Prog Batch.
Context (ext : externals).

(** The per-unit costs of the table. *)
Lemma CREDIT_COSTS_lookup operation unit :
  CREDIT_COSTS !! operation = Some unit →
  unit = (if bool_decide (operation = "convert") then 2
          else if bool_decide (operation = "ocr") then 3 else 1)
  ∧ operation ∈ [ "merge"; "split"; "compress"; "convert"; "watermark";
                  "password_protect"; "remove_password"; "rotate";
                  "extract_pages"; "add_page_numbers"; "ocr" ].
Proof.
  unfold CREDIT_COSTS. rewrite !lookup_insert, lookup_empty.
  repeat case_decide; subst; intros [= <-]; split; try done;
    repeat (first [apply list_elem_of_here | apply list_elem_of_further]).
Qed.

(** What a validated submission does, by the balance it finds. *)
Lemma POST_validated req w user operation files unit :
  validated req w user operation files unit →
  let cost := unit * Z.of_nat (length files) in
  let balance := balance_of (store w) user in
  let job := job_of w user operation files (options_of req) in
  run ext (POST req) w =
    if balance <? cost then
      (w, inl (Response 402
                 (Insufficient "Insufficient credits" (JS.Number cost)
                    (JS.Number balance))))
    else
      (with_store
         (λ d, add_queue_row (QueueRow (job_id job) "batch_pdf" "pending")
                 (deduct_credits ext user (JS.Number cost)
                    (reason_of operation files) (add_batch_job job d))) w,
       inl (Response 200
              (Created job (JS.Number cost)
                 ("Processing " ++ nat_to_string (length files) ++ " files.")))).
Proof.
  intros (header & body & Hauth & Hpre & Huser & Hbody & Hop & Hfiles & Hne & Hcost).
  destruct (CREDIT_COSTS_lookup _ _ Hcost) as [Hunit _].
  assert (Hnz : (unit =? 0) = false)
    by (rewrite Hunit; repeat case_bool_decide; done).
  destruct files as [|f fs]; [done|].
  unfold POST, options_of. rewrite Hauth, Hpre. simpl.
  rewrite Huser. simpl. rewrite Hbody, Hop, Hfiles. simpl.
  unfold creditCost, JS.get. rewrite Hcost. simpl. rewrite Hnz. simpl.
  rewrite or_else_balance. simpl. unfold balance_of.
  destruct (default 0 (user_credits (store w) !! user)
            <? unit * Z.of_nat (S (length fs))); done.
Qed.

Lemma requests_validated req w user operation files unit :
  validated req w user operation files unit →
  let cost := unit * Z.of_nat (length files) in
  let balance := balance_of (store w) user in
  ∃ token,
  requests ext (POST req) w =
    ([ Request (AuthGetUser token); Request (SelectCredits "balance" user) ]
     ++ if balance <? cost then []
        else [ Request (InsertBatchJob user operation "pending"
                          (map (λ f, Build_BatchFile f pending) files)
                          (options_of req) 0);
               Request (RpcDeductCredits user (JS.Number cost)
                          (reason_of operation files));
               Request (InsertJobQueue (length (batch_jobs (store w)))
                          "batch_pdf" "pending") ])%list.
Proof.
  intros (header & body & Hauth & Hpre & Huser & Hbody & Hop & Hfiles & Hne & Hcost).
  destruct (CREDIT_COSTS_lookup _ _ Hcost) as [Hunit _].
  assert (Hnz : (unit =? 0) = false)
    by (rewrite Hunit; repeat case_bool_decide; done).
  destruct files as [|f fs]; [done|].
  eexists.
  unfold POST, options_of. rewrite Hauth, Hpre. simpl.
  rewrite Huser. simpl. rewrite Hbody, Hop, Hfiles. simpl.
  unfold creditCost, JS.get. rewrite Hcost. simpl. rewrite Hnz. simpl.
  rewrite or_else_balance. simpl. unfold balance_of.
  destruct (default 0 (user_credits (store w) !! user)
            <? unit * Z.of_nat (S (length fs))); done.
Qed.

End BatchFacts.

Section BatchClaims.
Import Store Prog Batch.
Context (ext : externals).

(** C7.  A validated submission that finds a balance below its cost is
    answered 402 with the required amount and the available balance, and
    leaves the whole process state as it was: no job row, no deduction
    request, no balance written, whatever [deduct_credits] does. *)
Theorem batch_insufficient_funds req w user operation files unit :
  validated req w user operation files unit →
  balance_of (store w) user < unit * Z.of_nat (length files) →
  run ext (POST req) w =
    (w, inl (Response 402
               (Insufficient "Insufficient credits"
                  (JS.Number (unit * Z.of_nat (length files)))
                  (JS.Number (balance_of (store w) user)))))
  ∧ omap Trace.persisted_job (requests ext (POST req) w) = []
  ∧ omap Trace.reservation (requests ext (POST req) w) = []
  ∧ filter (λ r, Trace.writes_balance r = true) (requests ext (POST req) w) = [].
Proof.
  intros Hv Hlt.
  pose proof (POST_validated ext _ _ _ _ _ _ Hv) as Hrun.
  destruct (requests_validated ext _ _ _ _ _ _ Hv) as [token Hreq].
  simpl in Hrun, Hreq.
  rewrite (proj2 (Z.ltb_lt _ _) Hlt) in Hrun, Hreq.
  rewrite Hrun, Hreq. done.
Qed.

(** C8.  For a validated submission the cost is the per-unit cost of the
    operation (2 for convert, 3 for ocr, 1 for the others) times the number
    of files; that product is the only amount the handler asks
    [deduct_credits] for, and the amount it reports as used. *)
Theorem batch_reserved_amount req w user operation files unit :
  validated req w user operation files unit →
  let cost := unit * Z.of_nat (length files) in
  unit = (if bool_decide (operation = "convert") then 2
          else if bool_decide (operation = "ocr") then 3 else 1)
  ∧ creditCost operation files = JS.Number cost
  ∧ omap Trace.reservation (requests ext (POST req) w)
      = (if balance_of (store w) user <? cost then [] else [JS.Number cost])
  ∧ ∀ job used msg,
      (run ext (POST req) w).2 = inl (Response 200 (Created job used msg)) →
      used = JS.Number cost.
Proof.
  intros Hv cost.
  pose proof (POST_validated ext _ _ _ _ _ _ Hv) as Hrun.
  destruct (requests_validated ext _ _ _ _ _ _ Hv) as [token Hreq].
  destruct Hv as (header & body & _ & _ & _ & _ & _ & _ & _ & Hcost).
  destruct (CREDIT_COSTS_lookup _ _ Hcost) as [Hunit _].
  simpl in Hrun, Hreq. fold cost in Hrun, Hreq.
  split; [exact Hunit|]. split.
  { unfold creditCost, JS.get. by rewrite Hcost. }
  split.
  - rewrite Hreq. by destruct (balance_of (store w) user <? cost).
  - intros job used msg. rewrite Hrun.
    destruct (balance_of (store w) user <? cost); simpl; [discriminate|].
    by intros [= _ <- _].
Qed.

(** C4, as the code has it.  A submission answered with success has written
    the job row first, in status [pending] with progress 0 and one pending
    file per input in input order; the request to [deduct_credits] for the
    computed cost comes after the row, carries the user, the amount and a
    reason but no key, and its reply is not looked at; the queue row comes
    last. *)
Theorem batch_success_persists_then_deducts req w job used msg :
  (run ext (POST req) w).2 = inl (Response 200 (Created job used msg)) →
  ∃ token user operation files,
    JS.fields_of (parsed req) ≫= Batch.files = Some files ∧
    job = job_of w user operation files (options_of req) ∧
    job_status job = "pending" ∧
    job_files job = map (λ f, Build_BatchFile f pending) files ∧
    used = creditCost operation files ∧
    requests ext (POST req) w =
      [ Request (AuthGetUser token);
        Request (SelectCredits "balance" user);
        Request (InsertBatchJob user operation "pending"
                   (map (λ f, Build_BatchFile f pending) files)
                   (options_of req) 0);
        Request (RpcDeductCredits user (creditCost operation files)
                   (reason_of operation files));
        Request (InsertJobQueue (job_id job) "batch_pdf" "pending") ] ∧
    (run ext (POST req) w).1 =
      with_store
        (λ d, add_queue_row (QueueRow (job_id job) "batch_pdf" "pending")
                (deduct_credits ext user (creditCost operation files)
                   (reason_of operation files) (add_batch_job job d))) w.
Proof.
  unfold POST, options_of.
  destruct (authorization req) as [header|]; simpl; [|discriminate].
  destruct (String.prefix "Bearer " header); simpl; [|discriminate].
  destruct (auth_users (store w) !! _) as [user|] eqn:Huser; simpl; [|discriminate].
  destruct (parsed req) as [| |body]; simpl; [discriminate|discriminate|].
  destruct (JS.present (operation body)) as [operation|]; simpl; [|discriminate].
  destruct (files body) as [[|f fs]|]; simpl; try discriminate.
  destruct (JS.truthy (JS.get CREDIT_COSTS operation)); simpl; [|discriminate].
  rewrite or_else_balance.
  destruct (JS.lt _ _); simpl; [discriminate|].
  intros [= <- <- <-].
  eexists _, user, operation, (f :: fs). simpl.
  repeat split; try done.
Qed.

End BatchClaims.

Lemma merge_three_validated :
  Batch.validated Sample.merge_three Sample.process "user-1" "merge"
    ["a.pdf"; "b.pdf"; "c.pdf"] 1.
Proof.
  exists "Bearer tok-1", (Batch.Payload (Some "merge") (Some ["a.pdf"; "b.pdf"; "c.pdf"]) None).
  repeat split; done.
Defined.

Lemma ocr_two_validated :
  Batch.validated Sample.ocr_two Sample.process "user-1" "ocr" ["a.pdf"; "b.pdf"] 3.
Proof.
  exists "Bearer tok-1", (Batch.Payload (Some "ocr") (Some ["a.pdf"; "b.pdf"]) None).
  repeat split; done.
Defined.

(** Two files of ocr cost 6 against a balance of 5. *)
Lemma batch_insufficient_funds_witness :
  Prog.run Reference.ext (Batch.POST Sample.ocr_two) Sample.process =
    (Sample.process,
     inl (Batch.Response 402
            (Batch.Insufficient "Insufficient credits" (JS.Number 6) (JS.Number 5))))
  ∧ omap Trace.persisted_job
      (Prog.requests Reference.ext (Batch.POST Sample.ocr_two) Sample.process) = []
  ∧ omap Trace.reservation
      (Prog.requests Reference.ext (Batch.POST Sample.ocr_two) Sample.process) = []
  ∧ filter (λ r, Trace.writes_balance r = true)
      (Prog.requests Reference.ext (Batch.POST Sample.ocr_two) Sample.process) = [].
Proof.
  apply (batch_insufficient_funds Reference.ext Sample.ocr_two Sample.process
           "user-1" "ocr" ["a.pdf"; "b.pdf"] 3).
  - exact ocr_two_validated.
  - vm_compute. reflexivity.
Defined.

(** Three files of merge cost 3. *)
Lemma batch_reserved_amount_witness :
  1 = 1
  ∧ Batch.creditCost "merge" ["a.pdf"; "b.pdf"; "c.pdf"] = JS.Number 3
  ∧ omap Trace.reservation
      (Prog.requests Reference.ext (Batch.POST Sample.merge_three) Sample.process)
    = [JS.Number 3]
  ∧ ∀ job used msg,
      (Prog.run Reference.ext (Batch.POST Sample.merge_three) Sample.process).2
        = inl (Batch.Response 200 (Batch.Created job used msg)) →
      used = JS.Number 3.
Proof.
  apply (batch_reserved_amount Reference.ext Sample.merge_three Sample.process
           "user-1" "merge" ["a.pdf"; "b.pdf"; "c.pdf"] 1).
  exact merge_three_validated.
Defined.

Lemma batch_success_persists_then_deducts_witness :
  ∃ token user operation files,
    JS.fields_of (Batch.parsed Sample.merge_three) ≫= Batch.files = Some files ∧
    Store.BatchJob 0 "user-1" "merge" "pending"
      (map (λ f, Store.Build_BatchFile f Store.pending) ["a.pdf"; "b.pdf"; "c.pdf"])
      [] 0
      = Batch.job_of Sample.process user operation files (Batch.options_of Sample.merge_three) ∧
    "pending" = "pending" ∧
    map (λ f, Store.Build_BatchFile f Store.pending) ["a.pdf"; "b.pdf"; "c.pdf"]
      = map (λ f, Store.Build_BatchFile f Store.pending) files ∧
    JS.Number 3 = Batch.creditCost operation files ∧
    Prog.requests Reference.ext (Batch.POST Sample.merge_three) Sample.process =
      [ Prog.Request (Prog.AuthGetUser token);
        Prog.Request (Prog.SelectCredits "balance" user);
        Prog.Request (Prog.InsertBatchJob user operation "pending"
                        (map (λ f, Store.Build_BatchFile f Store.pending) files)
                        (Batch.options_of Sample.merge_three) 0);
        Prog.Request (Prog.RpcDeductCredits user (Batch.creditCost operation files)
                        (Batch.reason_of operation files));
        Prog.Request (Prog.InsertJobQueue 0 "batch_pdf" "pending") ] ∧
    (Prog.run Reference.ext (Batch.POST Sample.merge_three) Sample.process).1 =
      Store.with_store
        (λ d, Store.add_queue_row (Store.QueueRow 0 "batch_pdf" "pending")
                (Store.deduct_credits Reference.ext user
                   (Batch.creditCost operation files)
                   (Batch.reason_of operation files)
                   (Store.add_batch_job
                      (Store.BatchJob 0 "user-1" "merge" "pending"
                         (map (λ f, Store.Build_BatchFile f Store.pending)
                            ["a.pdf"; "b.pdf"; "c.pdf"]) [] 0) d)))
        Sample.process.
Proof.
  apply (batch_success_persists_then_deducts Reference.ext Sample.merge_three
           Sample.process
           (Store.BatchJob 0 "user-1" "merge" "pending"
              (map (λ f, Store.Build_BatchFile f Store.pending)
                 ["a.pdf"; "b.pdf"; "c.pdf"]) [] 0)
           (JS.Number 3) "Processing 3 files.").
  vm_compute. reflexivity.
Defined.

(** C4, as stated, fails on a successful submission: the job row is requested
    before the deduction, in status [pending]. *)
Lemma batch_persists_before_reserving :
  ¬ Stated.reserve_then_persist Reference.ext Sample.merge_three Sample.process.
Proof.
  intros H.
  destruct (H (Store.BatchJob 0 "user-1" "merge" "pending"
                 (map (λ f, Store.Build_BatchFile f Store.pending)
                    ["a.pdf"; "b.pdf"; "c.pdf"]) [] 0)
              (JS.Number 3) "Processing 3 files.") as [Horder _].
  - vm_compute. reflexivity.
  - vm_compute in Horder. discriminate.
Qed.

(** The same submission sent twice is charged twice and leaves two jobs:
    nothing in the request identifies a retry. *)
Lemma batch_retry_charges_twice :
  let once := (Prog.run Reference.ext (Batch.POST Sample.merge_two) Sample.process).1 in
  let twice := (Prog.run Reference.ext (Batch.POST Sample.merge_two) once).1 in
  Store.balance_of (Store.store once) "user-1" = 3 ∧
  Store.balance_of (Store.store twice) "user-1" = 1 ∧
  length (Store.batch_jobs (Store.store twice)) = 2%nat.
Proof. vm_compute. done. Qed.

(** ** PayPal webhook *)

Section PaypalFacts.
Import Store Prog Paypal.
Context (ext : externals).

Lemma CREDIT_PACKAGES_lookup planId credits :
  CREDIT_PACKAGES !! planId = Some credits →
  credits ∈ [100; 500; 2000; 10000].
Proof.
  unfold CREDIT_PACKAGES. rewrite !lookup_insert, lookup_empty.
  repeat case_decide; intros [= <-];
    repeat (first [apply list_elem_of_here | apply list_elem_of_further]).
Qed.

Lemma CREDIT_PACKAGES_nonzero planId credits :
  CREDIT_PACKAGES !! planId = Some credits → 0 < credits.
Proof.
  intros H. apply CREDIT_PACKAGES_lookup in H.
  repeat (apply elem_of_cons in H as [->|H]; [lia|]).
  by apply elem_of_nil in H.
Qed.

(** A purchase runs through: balance read, new total written, ledger row,
    receipt and payment log appended, 200. *)
Lemma CREDIT_PACKAGES_int4 planId credits :
  CREDIT_PACKAGES !! planId = Some credits → int4 credits = true.
Proof.
  intros H. apply CREDIT_PACKAGES_lookup in H.
  repeat (apply elem_of_cons in H as [->|H]; [done|]).
  by apply elem_of_nil in H.
Qed.

Lemma CREDIT_PACKAGES_most planId credits :
  CREDIT_PACKAGES !! planId = Some credits → credits ≤ 10000.
Proof.
  intros H. apply CREDIT_PACKAGES_lookup in H.
  repeat (apply elem_of_cons in H as [->|H]; [lia|]).
  by apply elem_of_nil in H.
Qed.

Lemma POST_purchase d c userId planId credits paid w :
  purchase d c userId planId credits paid →
  run ext (POST d) w
    = (purchased c userId planId credits paid w, inl (Response 200 Received)).
Proof.
  intros (Hsig & Hev & Hu & Hp & Hplan & Hpaid).
  pose proof (CREDIT_PACKAGES_nonzero _ _ Hplan) as Hpos.
  pose proof (CREDIT_PACKAGES_int4 _ _ Hplan) as Hrange.
  unfold POST, verifyPayPalWebhook. rewrite Hev, Hsig. simpl.
  unfold handlePaymentCompleted. simpl. rewrite Hu, Hp.
  unfold JS.get. rewrite Hplan. unfold JS.or_else at 1. simpl.
  destruct (Z.eqb_spec credits 0) as [->|Hnz]; [lia|]. simpl.
  destruct credits as [|q|q]; try lia. simpl.
  rewrite or_else_balance. simpl. rewrite Hpaid. simpl.
  unfold purchased, credited, recorded, amount_in_cents, integer, balance_of.
  rewrite ?Hrange.
  destruct (int4 (_ + Z.pos q)); simpl;
    rewrite ?Hrange; by destruct (cents _).
Qed.

Lemma recorded_credits c userId credits paid d :
  user_credits (recorded c userId credits paid d) = user_credits d
  ∧ credit_transactions (recorded c userId credits paid d) = credit_transactions d
  ∧ batch_jobs (recorded c userId credits paid d) = batch_jobs d
  ∧ job_queue (recorded c userId credits paid d) = job_queue d.
Proof. unfold recorded. by destruct (amount_in_cents paid). Qed.

Lemma int4_in_int4 n : int4 n = true ↔ in_int4 n.
Proof. unfold int4, in_int4. rewrite andb_true_iff, !Z.leb_le. done. Qed.

(** The balance and the ledger after a purchase. *)
Lemma purchased_balance c userId planId credits paid w :
  in_int4 (balance_of (store w) userId + credits) →
  balance_of (store (purchased c userId planId credits paid w)) userId
  = balance_of (store w) userId + credits.
Proof.
  intros Hin. apply int4_in_int4 in Hin.
  unfold purchased, balance_of at 1. simpl.
  destruct (recorded_credits c userId credits paid
              (add_credit_transaction (ledger_row c userId planId credits paid)
                 (credited userId credits (store w)))) as (-> & _).
  unfold credited. rewrite Hin. simpl. by rewrite lookup_insert_eq.
Qed.

Lemma purchased_ledger c userId planId credits paid w :
  credit_transactions (store (purchased c userId planId credits paid w))
  = app (credit_transactions (store w))
      [ledger_row c userId planId credits paid].
Proof.
  unfold purchased. simpl.
  destruct (recorded_credits c userId credits paid
              (add_credit_transaction (ledger_row c userId planId credits paid)
                 (credited userId credits (store w)))) as (_ & -> & _).
  unfold credited. by destruct (int4 _).
Qed.

(** An event turned away at a guard leaves an error line on the console
    and nothing else, and is answered 200. *)
Lemma POST_turned_away d w :
  turned_away d →
  ∃ msg,
    run ext (POST d) w
      = (World (store w) (rateLimitMap w) (clock w)
           (app (console w) [(Error, msg)]),
         inl (Response 200 Received))
    ∧ requests ext (POST d) w = [].
Proof.
  intros (c & Hsig & Hev & Hguard).
  unfold POST, verifyPayPalWebhook. rewrite Hev, Hsig. simpl.
  unfold handlePaymentCompleted. simpl.
  destruct Hguard as [Hu|[Hp|(planId & Hp & Hplan)]].
  - rewrite Hu. simpl. eauto.
  - rewrite Hp. destruct (JS.present (custom_id c)); simpl; eauto.
  - rewrite Hp, Hplan. destruct (JS.present (custom_id c)); simpl; eauto.
Qed.

End PaypalFacts.

(** C1, as the code has it.  The handler keeps no record of the captures it
    has seen.  Take a verified completed capture that names a user in
    [custom_id] and a plan of the table in [invoice_id] and carries an
    [amount] (this is [Paypal.purchase]), handled [k] times one after the
    other, no other handler running in between, with the balance within the
    32-bit range of its column before the first and after the last handling.
    Each handling appends one ledger row and raises the balance by the
    credits of the package, so the [k] deliveries of the same event leave [k]
    rows and [k] times the credits. *)
Theorem webhook_every_delivery_credits (ext : Store.externals)
    (d : Paypal.delivery) (c : Paypal.capture) (userId planId : string)
    (credits : Z) (paid : Paypal.money) (k : nat) (w : Store.world) :
  Paypal.purchase d c userId planId credits paid →
  Store.in_int4 (Store.balance_of (Store.store w) userId) →
  Store.in_int4 (Store.balance_of (Store.store w) userId + Z.of_nat k * credits) →
  let w1 := Paypal.deliveries ext k d w in
  Store.balance_of (Store.store w1) userId
    = Store.balance_of (Store.store w) userId + Z.of_nat k * credits ∧
  Store.credit_transactions (Store.store w1)
    = app (Store.credit_transactions (Store.store w))
        (replicate k (Paypal.ledger_row c userId planId credits paid)).
Proof.
  intros Hd. revert w. induction k as [|k IH]; intros w Hlo Hhi; simpl.
  - split; [lia|]. by rewrite app_nil_r.
  - pose proof Hd as (_ & _ & _ & _ & Hplan & _).
    pose proof (CREDIT_PACKAGES_nonzero _ _ Hplan) as Hpos.
    assert (Hone : Store.in_int4 (Store.balance_of (Store.store w) userId + credits)).
    { unfold Store.in_int4 in *. nia. }
    rewrite (POST_purchase ext _ _ _ _ _ _ w Hd). cbn [fst].
    pose proof (purchased_balance c userId planId credits paid w Hone) as Hb1.
    pose proof (purchased_ledger c userId planId credits paid w) as Ht1.
    destruct (IH (Paypal.purchased c userId planId credits paid w)) as [Hb Ht].
    + by rewrite Hb1.
    + rewrite Hb1. unfold Store.in_int4 in *. lia.
    + cbv zeta in Hb, Ht. rewrite Hb, Ht, Hb1, Ht1. split; [lia|].
      by rewrite <- app_assoc.
Qed.

Lemma cap_123_purchase :
  Paypal.purchase Sample.cap_123
    (Paypal.Capture "cap_123" (Some "user-1") (Some "STARTER_PLAN")
       (Some (Paypal.Money "9.99" "USD")))
    "user-1" "STARTER_PLAN" 100 (Paypal.Money "9.99" "USD").
Proof. repeat split; done. Defined.

(** Three deliveries of capture [cap_123] of the starter package. *)
Lemma webhook_every_delivery_credits_witness :
  let w1 := Paypal.deliveries Reference.ext 3 Sample.cap_123 Sample.process in
  Store.balance_of (Store.store w1) "user-1"
    = Store.balance_of (Store.store Sample.process) "user-1" + Z.of_nat 3 * 100 ∧
  Store.credit_transactions (Store.store w1)
    = app (Store.credit_transactions (Store.store Sample.process))
        (replicate 3
           (Paypal.ledger_row
              (Paypal.Capture "cap_123" (Some "user-1") (Some "STARTER_PLAN")
                 (Some (Paypal.Money "9.99" "USD")))
              "user-1" "STARTER_PLAN" 100 (Paypal.Money "9.99" "USD"))).
Proof.
  apply (webhook_every_delivery_credits Reference.ext Sample.cap_123
           (Paypal.Capture "cap_123" (Some "user-1") (Some "STARTER_PLAN")
              (Some (Paypal.Money "9.99" "USD")))
           "user-1" "STARTER_PLAN" 100 (Paypal.Money "9.99" "USD") 3
           Sample.process).
  - exact cap_123_purchase.
  - vm_compute. split; discriminate.
  - vm_compute. split; discriminate.
Defined.

(** C1, as stated, fails: three deliveries of [cap_123] leave three ledger
    rows and a balance raised by 300. *)
Lemma webhook_redelivery_credits_again :
  ¬ Stated.credited_once Reference.ext Sample.cap_123 Sample.process 3 "user-1" 100.
Proof.
  intros [Hrows _]. vm_compute in Hrows. discriminate.
Qed.

Lemma webhook_three_deliveries :
  let w1 := Paypal.deliveries Reference.ext 3 Sample.cap_123 Sample.process in
  length (Store.credit_transactions (Store.store w1)) = 3%nat ∧
  Store.balance_of (Store.store w1) "user-1" = 305.
Proof. vm_compute. done. Qed.

(** C5, as the code has it.  The status depends on verification and on
    whether a handler lets an exception out, not on whether the event was
    turned away: 400 when verification fails (a body that is not JSON fails
    it), 500 when the handler throws, 200 in every other case; in particular
    an event turned away for a missing identifier or an unknown plan is
    answered 200. *)
Theorem webhook_status (ext : Store.externals) (d : Paypal.delivery)
    (w : Store.world) :
  (∃ body,
     (Prog.run ext (Paypal.POST d) w).2
       = inl (Paypal.Response (Paypal.status_of d) body))
  ∧ (Paypal.verifyPayPalWebhook d = false → Paypal.status_of d = 400)
  ∧ (Paypal.turned_away d → Paypal.status_of d = 200).
Proof.
  split; [|split].
  - unfold Paypal.POST, Paypal.status_of, Paypal.verifyPayPalWebhook.
    destruct (Paypal.parsed d) as [ev|]; simpl; [|eauto].
    destruct (Paypal.verification_status d); simpl; [|eauto].
    unfold Paypal.throws.
    destruct (String.eqb (Paypal.event_type ev) "PAYMENT.CAPTURE.COMPLETED"); simpl.
    + unfold Paypal.handlePaymentCompleted.
      destruct (Paypal.resource ev) as [c|]; simpl; [|eauto].
      destruct (JS.present (Paypal.custom_id c)) as [userId|]; simpl; [|eauto].
      destruct (JS.present (Paypal.invoice_id c)) as [planId|]; simpl; [|eauto].
      destruct (JS.is_zero _); simpl; [eauto|].
      destruct (Paypal.amount c) as [paid|]; simpl;
        repeat (first [ destruct (Prog.integer _)
                      | destruct (Prog.cents _)
                      | destruct (Prog.nullable_integer _) ]; simpl); eauto.
    + unfold Paypal.handlePaymentFailed.
      destruct (_ || _); simpl; [|eauto].
      destruct (Paypal.resource ev) as [c|]; simpl; [|eauto].
      destruct (JS.present (Paypal.custom_id c)) as [userId|]; simpl; [|eauto].
      destruct (Paypal.amount c) as [paid|]; simpl;
        repeat (destruct (Prog.cents _); simpl); eauto.
  - unfold Paypal.status_of. by intros ->.
  - intros (c & Hsig & Hev & Hguard).
    unfold Paypal.status_of, Paypal.verifyPayPalWebhook, Paypal.throws.
    rewrite Hev, Hsig. simpl.
    destruct Hguard as [Hu|[Hp|(planId & Hp & Hplan)]].
    + by rewrite Hu.
    + rewrite Hp. by destruct (JS.present (Paypal.custom_id c)).
    + rewrite Hp, Hplan. by destruct (JS.present (Paypal.custom_id c)).
Qed.

Lemma mystery_plan_turned_away : Paypal.turned_away Sample.mystery_plan.
Proof.
  exists (Paypal.Capture "cap_404" (Some "user-1") (Some "MYSTERY_PLAN")
            (Some (Paypal.Money "9.99" "USD"))).
  split; [done|]. split; [done|]. right; right. by exists "MYSTERY_PLAN".
Defined.

Lemma webhook_status_witness :
  (∃ body,
     (Prog.run Reference.ext (Paypal.POST Sample.mystery_plan) Sample.process).2
       = inl (Paypal.Response (Paypal.status_of Sample.mystery_plan) body))
  ∧ Paypal.status_of Sample.mystery_plan = 200.
Proof.
  destruct (webhook_status Reference.ext Sample.mystery_plan Sample.process)
    as (Hrun & _ & Hturned).
  split; [exact Hrun|]. apply Hturned. exact mystery_plan_turned_away.
Defined.

(** C5, as stated, fails: the delivery for plan [MYSTERY_PLAN] is turned away
    and answered 200. *)
Lemma webhook_unknown_plan_answered_200 :
  ¬ Stated.rejected_gets_4xx Reference.ext Sample.mystery_plan Sample.process.
Proof.
  intros H. destruct (H mystery_plan_turned_away) as (r & Hr & Hlo & _).
  vm_compute in Hr. injection Hr as <-. vm_compute in Hlo. by apply Hlo.
Qed.

(** A delivery whose plan is no property of the table, or that lacks an
    identifier, changes neither the database nor any balance and issues no
    request. *)
Lemma webhook_turned_away_frame (ext : Store.externals) (d : Paypal.delivery)
    (w : Store.world) :
  Paypal.turned_away d →
  Store.store (Prog.run ext (Paypal.POST d) w).1 = Store.store w ∧
  Prog.requests ext (Paypal.POST d) w = [] ∧
  ∃ msg, Store.console (Prog.run ext (Paypal.POST d) w).1
         = app (Store.console w) [(Store.Error, msg)].
Proof.
  intros Hd. destruct (POST_turned_away ext d w Hd) as (msg & Hrun & Hreq).
  rewrite Hrun. simpl. eauto.
Qed.

(** C6 at the plan identifier [constructor], which is no entry of the table:
    the lookup finds the member every object inherits, the guard on 0 does
    not fire, and the handler goes on as for a purchase.  It asks for a new
    balance and a ledger row (both with a value that is no integer, which the
    integer columns refuse), writes a receipt and a payment log in status
    [completed], reports credits as added, logs no error and answers 200. *)
Theorem webhook_inherited_plan_not_rejected :
  let w1 := (Prog.run Reference.ext (Paypal.POST Sample.inherited_plan) Sample.process).1 in
  Paypal.CREDIT_PACKAGES !! "constructor" = None ∧
  JS.get Paypal.CREDIT_PACKAGES "constructor" = JS.Builtin ∧
  Prog.requests Reference.ext (Paypal.POST Sample.inherited_plan) Sample.process =
    [ Prog.Request (Prog.SelectCredits "credits" "user-1");
      Prog.Request (Prog.UpsertCredits "user-1" JS.Text);
      Prog.Request (Prog.InsertCreditTransaction "user-1" JS.Builtin
                      "PayPal purchase: cap_9" "cap_9" "9.99" "USD" "constructor");
      Prog.Request (Prog.InsertReceipt "user-1" "credit_purchase"
                      (JS.times_100 (JS.parseFloat "9.99")) "USD"
                      JS.Builtin "cap_9");
      Prog.Request (Prog.InsertPaymentLog "user-1" "paypal" "cap_9" "completed"
                      (JS.times_100 (JS.parseFloat "9.99")) "USD") ] ∧
  Store.payment_logs (Store.store w1) =
    [ Store.PaymentLog "user-1" "paypal" "cap_9" "completed" 999 "USD" ] ∧
  Store.receipts (Store.store w1) =
    [ Store.Receipt "user-1" "credit_purchase" 999 "USD" None "cap_9" ] ∧
  Store.console w1 = [ (Store.Info, "PayPal: Credits added for user user-1") ] ∧
  Store.credit_transactions (Store.store w1) = [] ∧
  Store.balance_of (Store.store w1) "user-1" = 5.
Proof. vm_compute. repeat split. Qed.

(** The plan identifier [__proto__] passes the guard in the same way, with
    the prototype object for credits: balance and ledger are refused their
    value, the receipt is refused as well, its credits being an object, and
    the payment log is written. *)
Example webhook_proto_plan_not_rejected :
  let d := Sample.capture_of "cap_10" "__proto__" in
  let w1 := (Prog.run Reference.ext (Paypal.POST d) Sample.process).1 in
  JS.get Paypal.CREDIT_PACKAGES "__proto__" = JS.Prototype ∧
  (Prog.run Reference.ext (Paypal.POST d) Sample.process).2
    = inl (Paypal.Response 200 Paypal.Received) ∧
  Store.payment_logs (Store.store w1) =
    [ Store.PaymentLog "user-1" "paypal" "cap_10" "completed" 999 "USD" ] ∧
  Store.receipts (Store.store w1) = [] ∧
  Store.credit_transactions (Store.store w1) = [] ∧
  Store.balance_of (Store.store w1) "user-1" = 5.
Proof. vm_compute. repeat split. Qed.

(** ** Handlers in flight together *)

(** C2 on the webhook.  The handler reads the balance with one request and
    writes the total it computed with a later one.  Two deliveries of
    different captures for the same user, taking turns at their awaits, both
    read 5 and both write 105: both are answered 200, the ledger holds two
    rows of +100, and the balance has risen by 100 only.  Handled one after
    the other the same two deliveries leave 205. *)
Theorem webhook_concurrent_deliveries_lose_a_credit :
  let a := Sample.capture_of "cap_A" "STARTER_PLAN" in
  let b := Sample.capture_of "cap_B" "STARTER_PLAN" in
  let together :=
    Prog.interleave Reference.ext Sample.alternate [Paypal.POST a; Paypal.POST b]
      Sample.process in
  let in_turn :=
    (Prog.run Reference.ext (Paypal.POST b)
       (Prog.run Reference.ext (Paypal.POST a) Sample.process).1).1 in
  Trace.read_then_write
    (Prog.requests Reference.ext (Paypal.POST a) Sample.process) = true ∧
  together.2 = [ Prog.Ret (Paypal.Response 200 Paypal.Received);
                 Prog.Ret (Paypal.Response 200 Paypal.Received) ] ∧
  map Store.tx_amount (Store.credit_transactions (Store.store together.1)) = [100; 100] ∧
  Store.balance_of (Store.store together.1) "user-1" = 105 ∧
  Store.balance_of (Store.store in_turn) "user-1" = 205.
Proof. vm_compute. repeat split. Qed.

(** C2 on the batch route.  The balance is checked on a read and the
    deduction is a later request whose reply is not looked at.  Two
    submissions of cost 3 against a balance of 5, taking turns at their
    awaits, both pass the check and are both answered with success and
    [credits_used = 3], whatever [deduct_credits] does. *)
Lemma batch_concurrent_submissions_both_succeed (ext : Store.externals) :
  let together :=
    Prog.interleave ext Sample.alternate
      [Batch.POST Sample.merge_three; Batch.POST Sample.merge_three]
      Sample.process in
  ∃ job1 job2 msg1 msg2,
    together.2 = [ Prog.Ret (Batch.Response 200 (Batch.Created job1 (JS.Number 3) msg1));
                   Prog.Ret (Batch.Response 200 (Batch.Created job2 (JS.Number 3) msg2)) ] ∧
    Store.job_id job1 = 0%nat ∧ Store.job_id job2 = 1%nat ∧
    Store.balance_of Sample.accounts "user-1" = 5.
Proof.
  simpl. eexists _, _, _, _. repeat split.
Qed.

(** With the check-and-decrement procedure of the ledger behind
    [deduct_credits], the second of the two deductions is refused by the
    store, unnoticed: two jobs are queued and one is paid for. *)
Lemma batch_concurrent_submissions_one_paid :
  let together :=
    Prog.interleave Reference.ext Sample.alternate
      [Batch.POST Sample.merge_three; Batch.POST Sample.merge_three]
      Sample.process in
  length (Store.batch_jobs (Store.store together.1)) = 2%nat ∧
  length (Store.job_queue (Store.store together.1)) = 2%nat ∧
  Store.balance_of (Store.store together.1) "user-1" = 2.
Proof. vm_compute. repeat split. Qed.

(** ** Credit deduction endpoint *)

Section DeductFacts.
Import Store Prog Deduct.
Context (ext : externals).

(** The two validation tests of the route let exactly the acceptable
    amounts through. *)
Lemma validation_spec (v : option json) :
  (falsy v || not_a_number v || Qle_bool (number_of v) 0 = false
   ∧ negb (Qle_bool (number_of v) 1000) = false)
  ↔ acceptable v.
Proof.
  split.
  - intros [H1 H2].
    apply orb_false_iff in H1 as [H1 Hle]. apply orb_false_iff in H1 as [Hf Hn].
    destruct v as [[| b | q | s | |]|]; try discriminate.
    simpl in *. exists q. split; [done|]. split.
    + apply Qnot_le_lt. intros Hq. apply Qle_bool_iff in Hq. congruence.
    + apply Qle_bool_iff. by destruct (Qle_bool q 1000).
  - intros (q & -> & Hpos & Hmax). simpl. split.
    + apply orb_false_iff. split.
      * rewrite orb_false_r. destruct (Qeq_bool q 0) eqn:E; [|done].
        apply Qeq_bool_iff in E. rewrite E in Hpos. by apply Qlt_irrefl in Hpos.
      * destruct (Qle_bool q 0) eqn:E; [|done].
        apply Qle_bool_iff in E. by apply Qle_not_lt in E.
    + apply Qle_bool_iff in Hmax. by rewrite Hmax.
Qed.

End DeductFacts.

(** C10, as the code has it.  The rate limiter is asked before the body is
    read.  A signed-in request it refuses is answered 429 whatever its body.
    One it lets through is answered, when its body parses to a value other
    than [null], 400 exactly when the amount is missing, not a number, not
    above 0 or above 1000, and otherwise reaches [deductCreditsAtomic] with
    that amount and is answered 200 or 402; when its body cannot be parsed or
    parses to [null], reading the amount throws and the answer is 500.  On
    the 429, the 400 and the 500 no deduction is requested and the database
    is as before. *)
Theorem deduct_amount_validation (ext : Store.externals) (req : Deduct.call_in)
    (w : Store.world) (user : string) :
  Deduct.signed_in req w user →
  let gate := RateLimit.checkRateLimit user (Store.clock w) (Store.rateLimitMap w) in
  let out := Prog.run ext (Deduct.POST req) w in
  let asked := Prog.requests ext (Deduct.POST req) w in
  (gate.2 = false →
     out.2 = inl (Deduct.Response 429
                    (Deduct.Failure "Rate limit exceeded. Try again later."))
     ∧ Store.store out.1 = Store.store w
     ∧ filter (λ r, Trace.deducts r = true) asked = [])
  ∧ (∀ body, gate.2 = true → Deduct.parsed req = JS.Fields body →
     ¬ Deduct.acceptable (Deduct.amount body) →
     (∃ msg, out.2 = inl (Deduct.Response 400 (Deduct.Failure msg)))
     ∧ Store.store out.1 = Store.store w
     ∧ filter (λ r, Trace.deducts r = true) asked = [])
  ∧ (∀ body, gate.2 = true → Deduct.parsed req = JS.Fields body →
     Deduct.acceptable (Deduct.amount body) →
     ∃ q, Deduct.amount body = Some (Deduct.JNumber q)
          ∧ filter (λ r, Trace.deducts r = true) asked
            = [ Prog.Request (Prog.DeductCreditsAtomic user q (Deduct.reason_of body)) ]
          ∧ ∃ r, out.2 = inl r ∧ (Deduct.status r = 200 ∨ Deduct.status r = 402))
  ∧ (gate.2 = true → JS.fields_of (Deduct.parsed req) = None →
     out.2 = inl (Deduct.Response 500
                    (Deduct.Failure "Internal server error. Please try again."))
     ∧ Store.store out.1 = Store.store w
     ∧ filter (λ r, Trace.deducts r = true) asked = []).
Proof.
  intros (header & Hauth & Hpre & Huser). simpl.
  unfold Deduct.POST. rewrite Hauth, Hpre. simpl. rewrite Huser. simpl.
  destruct (RateLimit.checkRateLimit user (Store.clock w) (Store.rateLimitMap w))
    as [m ok] eqn:Hgate.
  simpl. destruct ok; simpl.
  - split; [discriminate|].
    destruct (Deduct.parsed req) as [| |fields]; simpl.
    + repeat split; try done; intros body _ [=].
    + repeat split; try done; intros body _ [=].
    + pose proof (validation_spec (Deduct.amount fields)) as Hspec.
      split; [|split; [|intros _ [=]]]; intros body _ [= <-].
      * intros Hbad.
        destruct (Deduct.falsy (Deduct.amount fields)
                  || Deduct.not_a_number (Deduct.amount fields)
                  || Qle_bool (Deduct.number_of (Deduct.amount fields)) 0) eqn:E1;
          [simpl; eauto|].
        destruct (negb (Qle_bool (Deduct.number_of (Deduct.amount fields)) 1000))
          eqn:E2; [simpl; eauto|].
        destruct Hbad. by apply Hspec.
      * intros Hok. pose proof Hok as (q & Hq & _). exists q. split; [done|].
        apply Hspec in Hok as [-> ->]. rewrite Hq. simpl.
        destruct (Store.deductCreditsAtomic ext user q _ _) as [db1 res].
        simpl. destruct (Store.success res); simpl; (split; [done|eauto]).
  - split; [done|]. repeat split; discriminate.
Qed.

Lemma sample_signed_in (amount : option Deduct.json) (w : Store.world) :
  Store.auth_users (Store.store w) !! "tok-1" = Some "user-1" →
  Deduct.signed_in (Sample.deduct amount) w "user-1".
Proof. intros H. exists "Bearer tok-1". repeat split; done. Defined.

Lemma half_credit_acceptable : Deduct.acceptable (Some (Deduct.JNumber (1 # 2))).
Proof. exists (1 # 2)%Q. repeat split; done. Defined.

Lemma deduct_amount_validation_witness :
  let req := Sample.deduct (Some (Deduct.JNumber (1 # 2))) in
  ∃ q, Some (Deduct.JNumber (1 # 2)) = Some (Deduct.JNumber q)
       ∧ filter (λ r, Trace.deducts r = true)
           (Prog.requests Reference.ext (Deduct.POST req) Sample.process)
         = [ Prog.Request (Prog.DeductCreditsAtomic "user-1" q "Credit usage") ]
       ∧ ∃ r, (Prog.run Reference.ext (Deduct.POST req) Sample.process).2 = inl r
              ∧ (Deduct.status r = 200 ∨ Deduct.status r = 402).
Proof.
  destruct (deduct_amount_validation Reference.ext
              (Sample.deduct (Some (Deduct.JNumber (1 # 2)))) Sample.process
              "user-1" (sample_signed_in _ Sample.process eq_refl))
    as (_ & _ & Hok & _).
  apply (Hok (Deduct.Payload (Some (Deduct.JNumber (1 # 2))) None));
    [reflexivity | reflexivity | exact half_credit_acceptable].
Defined.

Lemma missing_amount_unacceptable : ¬ Deduct.acceptable None.
Proof. by intros (q & ? & _). Qed.

(** C10, as stated, fails: after ten requests within the minute, the 11th
    request of the same user, sent without an amount, is answered 429. *)
Lemma deduct_rate_limited_before_validation :
  ¬ Stated.invalid_amount_gets_400 Reference.ext (Sample.deduct None)
      Sample.ten_requests_in.
Proof.
  intros H.
  destruct (H "user-1" (Deduct.Payload None None)
              (sample_signed_in _ Sample.ten_requests_in eq_refl) eq_refl
              missing_amount_unacceptable) as (r & Hr & Hs & _).
  vm_compute in Hr. injection Hr as <-. discriminate.
Qed.

(** ** Credit Ledger *)

Section LedgerFacts.
Import Ledger.

Lemma balance_post e l account :
  balance (post e l) account =
    if decide (account_id e = account) then balance l account + delta e
    else balance l account.
Proof.
  unfold balance at 1, post. simpl. rewrite lookup_insert.
  case_decide; simpl; [by subst|done].
Qed.

Lemma post_non_negative e l :
  non_negative l → 0 ≤ balance l (account_id e) + delta e →
  non_negative (post e l).
Proof.
  intros Hl He account. rewrite balance_post. case_decide; [by subst|apply Hl].
Qed.

Lemma reserve_non_negative account amount key reason l :
  0 < amount → non_negative l → non_negative (reserve account amount key reason l).1.
Proof.
  intros Hpos Hl. unfold reserve.
  destruct (applied l key); [done|].
  destruct (Z.leb_spec amount (balance l account)); [|done].
  apply post_non_negative; [done|]. simpl. lia.
Qed.

Lemma credit_non_negative account amount key reason l :
  0 < amount → non_negative l → non_negative (credit account amount key reason l).1.
Proof.
  intros Hpos Hl. unfold credit.
  destruct (applied l key); [done|].
  apply post_non_negative; [done|]. simpl. specialize (Hl account). lia.
Qed.

Lemma reconcile_non_negative job_id account reserved actual key l :
  non_negative l → non_negative (reconcile job_id account reserved actual key l).1.
Proof.
  intros Hl. unfold reconcile.
  destruct (Z.ltb_spec actual reserved).
  - pose proof (credit_non_negative account (reserved - actual) key "refund" l) as Hc.
    destruct (credit account (reserved - actual) key "refund" l) as [l1 o].
    apply Hc; [lia|done].
  - by destruct (reserved <? actual).
Qed.

Lemma apply_non_negative o l :
  well_formed o → non_negative l → non_negative (apply o l).
Proof.
  destruct o; simpl; intros Hwf Hl.
  - by apply reserve_non_negative.
  - by apply credit_non_negative.
  - by apply reconcile_non_negative.
Qed.

Lemma apply_all_non_negative os : ∀ l,
  Forall well_formed os → non_negative l → non_negative (apply_all os l).
Proof.
  induction os as [|o os IH]; intros l Hwf Hl; [done|].
  apply Forall_cons in Hwf as [Ho Hos].
  unfold apply_all. simpl. apply IH; [done|]. by apply apply_non_negative.
Qed.

Lemma empty_non_negative : non_negative empty.
Proof. intros account. done. Qed.

End LedgerFacts.

(** C3.  On the ledger of the specification, after any number of steps of
    any sequence of [reserve], [credit] and [reconcile] with positive
    amounts, every balance that was not negative at the start is not
    negative. *)
Theorem ledger_balance_never_negative (os : list Ledger.operation)
    (l : Ledger.ledger) (n : nat) :
  Forall Ledger.well_formed os →
  Ledger.non_negative l →
  Ledger.non_negative (Ledger.apply_all (take n os) l).
Proof.
  intros Hwf Hl. apply apply_all_non_negative; [|done].
  by apply Forall_take.
Qed.

(** A purchase of 100, a reservation of 50, a reservation of 80 that the
    balance does not cover, and a reconciliation that refunds 20. *)
Lemma ledger_balance_never_negative_witness :
  Ledger.non_negative
    (Ledger.apply_all
       (take 4
          [ Ledger.Credit "user-1" 100 "cap_123" "purchase";
            Ledger.Reserve "user-1" 50 "submit-1" "batch";
            Ledger.Reserve "user-1" 80 "submit-2" "batch";
            Ledger.Reconcile "job-1" "user-1" 50 30 "job-1" ])
       Ledger.empty).
Proof.
  apply (ledger_balance_never_negative
           [ Ledger.Credit "user-1" 100 "cap_123" "purchase";
             Ledger.Reserve "user-1" 50 "submit-1" "batch";
             Ledger.Reserve "user-1" 80 "submit-2" "batch";
             Ledger.Reconcile "job-1" "user-1" 50 30 "job-1" ]
           Ledger.empty 4).
  - repeat constructor; simpl; lia.
  - exact empty_non_negative.
Defined.

Example ledger_sample_balance :
  Ledger.balance
    (Ledger.apply_all
       [ Ledger.Credit "user-1" 100 "cap_123" "purchase";
         Ledger.Reserve "user-1" 50 "submit-1" "batch";
         Ledger.Reserve "user-1" 80 "submit-2" "batch";
         Ledger.Reconcile "job-1" "user-1" 50 30 "job-1" ]
       Ledger.empty) "user-1" = 70.
Proof. vm_compute. reflexivity. Qed.

(** The webhook, the one handler at hand that writes a balance itself, never
    lowers one: whatever the delivery, every balance after the handler is at
    least what it was before. *)
Lemma webhook_balances_never_fall (ext : Store.externals) (d : Paypal.delivery)
    (w : Store.world) (user : string) :
  Store.balance_of (Store.store w) user
  ≤ Store.balance_of (Store.store (Prog.run ext (Paypal.POST d) w).1) user.
Proof.
  unfold Paypal.POST, Paypal.verifyPayPalWebhook.
  destruct (Paypal.parsed d) as [ev|]; simpl; [|lia].
  destruct (Paypal.verification_status d); simpl; [|lia].
  destruct (String.eqb (Paypal.event_type ev) "PAYMENT.CAPTURE.COMPLETED"); simpl.
  - unfold Paypal.handlePaymentCompleted.
    destruct (Paypal.resource ev) as [c|]; simpl; [|lia].
    destruct (JS.present (Paypal.custom_id c)) as [userId|]; simpl; [|lia].
    destruct (JS.present (Paypal.invoice_id c)) as [planId|]; simpl; [|lia].
    unfold JS.get.
    destruct (Paypal.CREDIT_PACKAGES !! planId) as [n|] eqn:Hplan.
    + pose proof (CREDIT_PACKAGES_nonzero _ _ Hplan) as Hpos.
      rewrite !or_else_number.
      destruct n as [|q|q]; try lia. simpl.
      rewrite or_else_balance. simpl.
      destruct (Paypal.amount c) as [paid|]; simpl;
        repeat (destruct (Store.int4 _); simpl);
        repeat (destruct (Prog.cents _); simpl);
        unfold Store.balance_of; simpl; rewrite ?lookup_insert;
        try case_decide; subst; simpl; lia.
    + case_bool_decide; simpl; [|lia].
      destruct (String.eqb planId "__proto__"); simpl;
        rewrite or_else_balance; simpl;
        destruct (Paypal.amount c) as [paid|]; simpl;
        repeat (destruct (Prog.cents _); simpl);
        unfold Store.balance_of; simpl; lia.
  - unfold Paypal.handlePaymentFailed.
    destruct (_ || _); simpl; [|lia].
    destruct (Paypal.resource ev) as [c|]; simpl; [|lia].
    destruct (JS.present (Paypal.custom_id c)) as [userId|]; simpl; [|lia].
    destruct (Paypal.amount c) as [paid|]; simpl;
      repeat (destruct (Prog.cents _); simpl);
      unfold Store.balance_of; simpl; lia.
Qed.

(** ** The service as a whole *)

Section ServiceFacts.
Import Store Prog Service.

Lemma reference_deduct_credits_solvent user amount reason d :
  solvent d → solvent (Reference.deduct_credits user amount reason d).
Proof.
  intros Hd. unfold Reference.deduct_credits.
  destruct amount as [|n| | | |]; try done.
  destruct (Z.leb_spec n (balance_of d user)); [|done].
  intros u. unfold balance_of at 1. simpl. rewrite lookup_insert.
  case_decide; simpl; [lia|apply Hd].
Qed.

Lemma reference_deductCreditsAtomic_solvent user amount reason d :
  solvent d → solvent (Reference.deductCreditsAtomic user amount reason d).1.
Proof.
  intros Hd. unfold Reference.deductCreditsAtomic.
  destruct (Pos.eqb (Qden amount) 1); simpl; [|done].
  destruct (Z.leb_spec (Qnum amount) (balance_of d user)); simpl; [|done].
  intros u. unfold balance_of at 1. simpl. rewrite lookup_insert.
  case_decide; simpl; [lia|apply Hd].
Qed.

Lemma submit_solvent req w :
  solvent (store w) → solvent (store (run Reference.ext (Batch.POST req) w).1).
Proof.
  intros Hw. unfold Batch.POST.
  destruct (Batch.authorization req) as [header|]; simpl; [|done].
  destruct (String.prefix "Bearer " header); simpl; [|done].
  destruct (auth_users (store w) !! _) as [user|]; simpl; [|done].
  destruct (Batch.parsed req) as [| |body]; simpl; [done|done|].
  destruct (JS.present (Batch.operation body)) as [operation|]; simpl; [|done].
  destruct (Batch.files body) as [[|f fs]|]; simpl; try done.
  destruct (JS.truthy (JS.get Batch.CREDIT_COSTS operation)); simpl; [|done].
  destruct (JS.lt _ _); simpl; [done|].
  intros u.
  apply (reference_deduct_credits_solvent user _ _ (add_batch_job _ (store w)) Hw u).
Qed.

Lemma spend_solvent req w :
  solvent (store w) → solvent (store (run Reference.ext (Deduct.POST req) w).1).
Proof.
  intros Hw. unfold Deduct.POST.
  destruct (Deduct.authorization req) as [header|]; simpl; [|done].
  destruct (String.prefix "Bearer " header); simpl; [|done].
  destruct (auth_users (store w) !! _) as [user|]; simpl; [|done].
  destruct (RateLimit.checkRateLimit user (clock w) (rateLimitMap w)) as [m ok].
  simpl. destruct ok; simpl; [|done].
  destruct (Deduct.parsed req) as [| |body]; simpl; [done|done|].
  destruct (_ || _); simpl; [done|].
  destruct (negb _); simpl; [done|].
  pose proof (reference_deductCreditsAtomic_solvent user
                (Deduct.number_of (Deduct.amount body))
                (default "Credit usage" (JS.present (Deduct.reason body)))
                (store w) Hw) as Hd.
  destruct (Reference.deductCreditsAtomic user _ _ (store w)) as [d1 res].
  simpl in *. by destruct (success res).
Qed.

Lemma notify_solvent d w :
  solvent (store w) → solvent (store (run Reference.ext (Paypal.POST d) w).1).
Proof.
  intros Hw u. pose proof (webhook_balances_never_fall Reference.ext d w u).
  specialize (Hw u). lia.
Qed.

(** With the check-and-decrement procedures of the ledger behind
    [deduct_credits] and [deductCreditsAtomic], no sequence of submissions,
    deductions and webhook deliveries handled one after the other takes a
    balance below zero. *)
Lemma handlers_keep_balances_non_negative (calls : list invocation) : ∀ w,
  solvent (store w) → solvent (store (handle_all Reference.ext calls w)).
Proof.
  induction calls as [|i calls IH]; intros w Hw; [done|].
  unfold handle_all. simpl. apply IH.
  destruct i; simpl.
  - by apply submit_solvent.
  - by apply spend_solvent.
  - by apply notify_solvent.
Qed.

End ServiceFacts.

(** * Further properties of the handlers *)

(** ** PayPal webhook: deliveries that credit nothing *)

(** A delivery whose signature check fails is answered 400 and is not looked
    at any further: nothing is asked of the store and the database stays as it
    is, whatever the event says. *)
Theorem webhook_unverified_untouched (ext : Store.externals)
    (d : Paypal.delivery) (w : Store.world) :
  Paypal.verifyPayPalWebhook d = false →
  (Prog.run ext (Paypal.POST d) w).2
    = inl (Paypal.Response 400 (Paypal.Failure "Invalid signature"))
  ∧ Store.store (Prog.run ext (Paypal.POST d) w).1 = Store.store w
  ∧ Prog.requests ext (Paypal.POST d) w = [].
Proof.
  intros Hv. unfold Paypal.POST. rewrite Hv. simpl. done.
Qed.

Lemma webhook_unverified_untouched_witness :
  let d := Paypal.Delivery (Paypal.parsed Sample.cap_123) false in
  (Prog.run Reference.ext (Paypal.POST d) Sample.process).2
    = inl (Paypal.Response 400 (Paypal.Failure "Invalid signature"))
  ∧ Store.store (Prog.run Reference.ext (Paypal.POST d) Sample.process).1
    = Store.store Sample.process
  ∧ Prog.requests Reference.ext (Paypal.POST d) Sample.process = [].
Proof.
  apply (webhook_unverified_untouched Reference.ext
           (Paypal.Delivery (Paypal.parsed Sample.cap_123) false) Sample.process).
  reflexivity.
Defined.



(** The products the two amount columns are offered for some prices: whole
    for 9.99 and 149.99, with a fraction for 19.99, 0.07 and 1.1, out of
    range above 21474836.47, and no number for a text. *)
Example amounts_in_cents :
  map (λ v, Paypal.amount_in_cents (Paypal.Money v "USD"))
    [ "9.99"; "149.99"; "19.99"; "0.07"; "1.1"; "21474836.47"; "21474836.48";
      "ten"; "10" ]
  = [ Some 999; Some 14999; None; None; None; Some 2147483647; None; None;
      Some 1000 ].
Proof. vm_compute. reflexivity. Qed.

(** A verified event of any other type than the three the switch names is
    acknowledged with 200 and ignored: one console line, no request, the
    database as before. *)
Theorem webhook_unhandled_event_ignored (ext : Store.externals)
    (d : Paypal.delivery) (ev : Paypal.event) (w : Store.world) :
  Paypal.verification_status d = true →
  Paypal.parsed d = Some ev →
  Paypal.event_type ev ≠ "PAYMENT.CAPTURE.COMPLETED" →
  ¬ More.failed_payment ev →
  Prog.run ext (Paypal.POST d) w
    = (Store.World (Store.store w) (Store.rateLimitMap w) (Store.clock w)
         (app (Store.console w)
            [(Store.Info, "Unhandled PayPal event: " ++ Paypal.event_type ev)]),
       inl (Paypal.Response 200 Paypal.Received))
  ∧ Prog.requests ext (Paypal.POST d) w = [].
Proof.
  intros Hsig Hev Hnc Hnf.
  unfold Paypal.POST, Paypal.verifyPayPalWebhook. rewrite Hev, Hsig. simpl.
  apply String.eqb_neq in Hnc. rewrite Hnc.
  assert (Hd : String.eqb (Paypal.event_type ev) "PAYMENT.CAPTURE.DENIED" = false).
  { apply String.eqb_neq. intros E. apply Hnf. by left. }
  assert (Hdd : String.eqb (Paypal.event_type ev) "PAYMENT.CAPTURE.DECLINED" = false).
  { apply String.eqb_neq. intros E. apply Hnf. by right. }
  rewrite Hd, Hdd. simpl. done.
Qed.

Lemma webhook_unhandled_event_ignored_witness :
  let ev := Paypal.Event "CHECKOUT.ORDER.APPROVED" None in
  let d := Paypal.Delivery (Some ev) true in
  Prog.run Reference.ext (Paypal.POST d) Sample.process
    = (Store.World Sample.accounts ∅ 0
         [(Store.Info, "Unhandled PayPal event: CHECKOUT.ORDER.APPROVED")],
       inl (Paypal.Response 200 Paypal.Received))
  ∧ Prog.requests Reference.ext (Paypal.POST d) Sample.process = [].
Proof.
  apply (webhook_unhandled_event_ignored Reference.ext
           (Paypal.Delivery (Some (Paypal.Event "CHECKOUT.ORDER.APPROVED" None)) true)
           (Paypal.Event "CHECKOUT.ORDER.APPROVED" None) Sample.process).
  - reflexivity.
  - reflexivity.
  - discriminate.
  - intros [H | H]; discriminate H.
Defined.

(** ** PayPal webhook: what a purchase writes, and in which order *)

(** The balance is written before the ledger row is built.  A verified
    completed capture of a plan of the table whose payload has no [amount]
    raises the balance by the credits of the package and then fails: no
    ledger row, no receipt and no payment log are written, and the answer is
    500.  The one case in which the balance stays is a new total beyond the
    32-bit range of the column, which the upsert refuses. *)
Theorem webhook_missing_amount_credits_without_ledger (ext : Store.externals)
    (d : Paypal.delivery) (c : Paypal.capture) (userId planId : string)
    (credits : Z) (w : Store.world) :
  Paypal.verification_status d = true →
  Paypal.parsed d = Some (Paypal.Event "PAYMENT.CAPTURE.COMPLETED" (Some c)) →
  JS.present (Paypal.custom_id c) = Some userId →
  JS.present (Paypal.invoice_id c) = Some planId →
  Paypal.CREDIT_PACKAGES !! planId = Some credits →
  Paypal.amount c = None →
  let w1 := (Prog.run ext (Paypal.POST d) w).1 in
  (Prog.run ext (Paypal.POST d) w).2
    = inl (Paypal.Response 500 (Paypal.Failure "Webhook handler failed"))
  ∧ Store.balance_of (Store.store w1) userId
    = (let total := Store.balance_of (Store.store w) userId + credits in
       if Store.int4 total then total else Store.balance_of (Store.store w) userId)
  ∧ Store.credit_transactions (Store.store w1) = Store.credit_transactions (Store.store w)
  ∧ Store.receipts (Store.store w1) = Store.receipts (Store.store w)
  ∧ Store.payment_logs (Store.store w1) = Store.payment_logs (Store.store w).
Proof.
  intros Hsig Hev Hu Hp Hplan Hnone. simpl.
  pose proof (CREDIT_PACKAGES_nonzero _ _ Hplan) as Hpos.
  unfold Paypal.POST, Paypal.verifyPayPalWebhook. rewrite Hev, Hsig. simpl.
  unfold Paypal.handlePaymentCompleted. simpl. rewrite Hu, Hp.
  unfold JS.get. rewrite Hplan. rewrite !or_else_number.
  destruct credits as [|q|q]; try lia. simpl.
  rewrite or_else_balance. simpl. rewrite Hnone.
  unfold Store.balance_of.
  destruct (Store.int4 (_ + Z.pos q)); simpl; repeat split.
  by rewrite lookup_insert_eq.
Qed.

Lemma webhook_missing_amount_credits_without_ledger_witness :
  let c := Paypal.Capture "cap_5" (Some "user-1") (Some "PRO_PLAN") None in
  let d := Paypal.Delivery
             (Some (Paypal.Event "PAYMENT.CAPTURE.COMPLETED" (Some c))) true in
  let w1 := (Prog.run Reference.ext (Paypal.POST d) Sample.process).1 in
  (Prog.run Reference.ext (Paypal.POST d) Sample.process).2
    = inl (Paypal.Response 500 (Paypal.Failure "Webhook handler failed"))
  ∧ Store.balance_of (Store.store w1) "user-1"
    = Store.balance_of (Store.store Sample.process) "user-1" + 500
  ∧ Store.credit_transactions (Store.store w1) = []
  ∧ Store.receipts (Store.store w1) = []
  ∧ Store.payment_logs (Store.store w1) = [].
Proof.
  apply (webhook_missing_amount_credits_without_ledger Reference.ext
           (Paypal.Delivery
              (Some (Paypal.Event "PAYMENT.CAPTURE.COMPLETED"
                       (Some (Paypal.Capture "cap_5" (Some "user-1")
                                (Some "PRO_PLAN") None)))) true)
           (Paypal.Capture "cap_5" (Some "user-1") (Some "PRO_PLAN") None)
           "user-1" "PRO_PLAN" 500 Sample.process); reflexivity.
Defined.



(** A purchase at 19.99 credits the account and writes its ledger row, yet
    leaves no receipt and no payment log: the product 1998.9999999999998 is
    refused by both INTEGER columns. *)
Example webhook_purchase_at_19_99_leaves_no_receipt :
  let c := Paypal.Capture "cap_124" (Some "user-1") (Some "STARTER_PLAN")
             (Some (Paypal.Money "19.99" "USD")) in
  let d := Paypal.Delivery
             (Some (Paypal.Event "PAYMENT.CAPTURE.COMPLETED" (Some c))) true in
  let w1 := (Prog.run Reference.ext (Paypal.POST d) Sample.process).1 in
  (Prog.run Reference.ext (Paypal.POST d) Sample.process).2
    = inl (Paypal.Response 200 Paypal.Received)
  ∧ Store.balance_of (Store.store w1) "user-1"
    = Store.balance_of (Store.store Sample.process) "user-1" + 100
  ∧ length (Store.credit_transactions (Store.store w1)) = 1%nat
  ∧ Store.receipts (Store.store w1) = []
  ∧ Store.payment_logs (Store.store w1) = [].
Proof. vm_compute. done. Qed.

(** ** PayPal webhook: ledger against balances *)

Section LedgerAgainstBalances.
Import Store Prog.
Context (ext : externals).

Lemma ledger_total_app d r user :
  More.ledger_total (add_credit_transaction r d) user
  = More.ledger_total d user
    + (if String.eqb (tx_user_id r) user then tx_amount r else 0).
Proof.
  unfold More.ledger_total. simpl.
  induction (credit_transactions d) as [|x xs IH]; simpl.
  - destruct (String.eqb (tx_user_id r) user); lia.
  - rewrite IH. destruct (String.eqb (tx_user_id x) user); lia.
Qed.

Lemma ledger_sum_app rows r user :
  foldr (λ r acc, if String.eqb (tx_user_id r) user then tx_amount r + acc else acc)
    0 (rows ++ [r])%list
  = foldr (λ r acc, if String.eqb (tx_user_id r) user then tx_amount r + acc else acc)
      0 rows
    + (if String.eqb (tx_user_id r) user then tx_amount r else 0).
Proof.
  induction rows as [|x xs IH]; simpl.
  - destruct (String.eqb (tx_user_id r) user); lia.
  - rewrite IH. destruct (String.eqb (tx_user_id x) user); lia.
Qed.

(** What one delivery does to the balance and to the ledger of a user whose
    balance has room for one more package: the two move together, except
    that a capture without [amount] moves the balance alone; the balance
    does not fall and rises by 10000 at most. *)
Lemma webhook_step d w user :
  More.room_for 1 (store w) user →
  let w1 := (run ext (Paypal.POST d) w).1 in
  More.ledger_total (store w1) user - More.ledger_total (store w) user
    ≤ balance_of (store w1) user - balance_of (store w) user
  ∧ (More.has_amount d →
     More.ledger_total (store w1) user - More.ledger_total (store w) user
     = balance_of (store w1) user - balance_of (store w) user)
  ∧ balance_of (store w) user ≤ balance_of (store w1) user
  ∧ balance_of (store w1) user ≤ balance_of (store w) user + 10000.
Proof.
  intros [Hlo Hhi].
  simpl. unfold More.has_amount, Paypal.POST, Paypal.verifyPayPalWebhook.
  destruct (Paypal.parsed d) as [ev|]; simpl; [|lia].
  destruct (Paypal.verification_status d); simpl; [|lia].
  destruct (String.eqb (Paypal.event_type ev) "PAYMENT.CAPTURE.COMPLETED"); simpl.
  - unfold Paypal.handlePaymentCompleted.
    destruct (Paypal.resource ev) as [c|] eqn:Hres; simpl; [|lia].
    destruct (JS.present (Paypal.custom_id c)) as [userId|]; simpl; [|lia].
    destruct (JS.present (Paypal.invoice_id c)) as [planId|]; simpl; [|lia].
    unfold JS.get.
    destruct (Paypal.CREDIT_PACKAGES !! planId) as [n|] eqn:Hplan.
    + pose proof (CREDIT_PACKAGES_nonzero _ _ Hplan) as Hpos.
      pose proof (CREDIT_PACKAGES_int4 _ _ Hplan) as Hrange.
      pose proof (CREDIT_PACKAGES_most _ _ Hplan) as Hmost.
      rewrite !or_else_number.
      destruct n as [|q|q]; try lia. simpl.
      rewrite or_else_balance. simpl. rewrite ?Hrange.
      assert (Hroom : userId = user →
                int4 (balance_of (store w) userId + Z.pos q) = true).
      { intros ->. apply int4_in_int4. unfold in_int4 in *. lia. }
      unfold balance_of in *.
      destruct (int4 (_ + Z.pos q)) eqn:Hfits; simpl;
        (destruct (Paypal.amount c) as [paid|] eqn:Hpaid; simpl;
         [ rewrite ?Hrange; simpl;
           repeat (destruct (cents _); simpl);
           unfold More.ledger_total; simpl; rewrite ?ledger_sum_app; simpl
         | split; [|split;
             [ intros Hall; destruct (Hall ev c eq_refl Hres) as [? Hsome];
               congruence |]] ]);
        unfold balance_of in *; simpl; rewrite ?lookup_insert;
        destruct (String.eqb_spec userId user) as [->|Hne];
        rewrite ?decide_True by done; rewrite ?decide_False by done;
        rewrite ?String.eqb_refl;
        try (apply String.eqb_neq in Hne; rewrite ?Hne);
        unfold More.ledger_total; simpl;
        try (specialize (Hroom eq_refl); discriminate); lia.
    + case_bool_decide; simpl; [|lia].
      destruct (String.eqb planId "__proto__"); simpl;
        rewrite or_else_balance; simpl;
        destruct (Paypal.amount c) as [paid|]; simpl;
        repeat (destruct (cents _); simpl);
        unfold More.ledger_total, balance_of; simpl; lia.
  - unfold Paypal.handlePaymentFailed.
    destruct (_ || _); simpl; [|lia].
    destruct (Paypal.resource ev) as [c|]; simpl; [|lia].
    destruct (JS.present (Paypal.custom_id c)) as [userId|]; simpl; [|lia].
    destruct (Paypal.amount c) as [paid|]; simpl;
      repeat (destruct (cents _); simpl);
      unfold More.ledger_total, balance_of; simpl; lia.
Qed.

(** Room for [S n] packages is room for one, and after one delivery room
    for [n]. *)
Lemma room_for_step d w user n :
  More.room_for (S n) (store w) user →
  More.room_for 1 (store w) user
  ∧ More.room_for n (store (run ext (Paypal.POST d) w).1) user.
Proof.
  intros Hroom.
  assert (Hone : More.room_for 1 (store w) user).
  { unfold More.room_for, in_int4 in *. lia. }
  split; [done|].
  destruct (webhook_step d w user Hone) as (_ & _ & Hup & Hmost).
  simpl in Hup, Hmost. unfold More.room_for, in_int4 in *. lia.
Qed.

End LedgerAgainstBalances.

(** Over any sequence of deliveries, of whatever content, the ledger of a
    user never grows by more than the balance of that user: the webhook
    writes no ledger row that it has not added to the balance before.  This
    holds as long as no new total leaves the 32-bit range of the balance
    column, which is the case when the balance has room for as many
    purchases of the largest package as there are deliveries; an upsert of a
    total out of range is refused, and the ledger row is written all the
    same. *)
Theorem webhook_ledger_backed_by_balance (ext : Store.externals)
    (ds : list Paypal.delivery) (w : Store.world) (user : string) :
  More.room_for (length ds) (Store.store w) user →
  More.ledger_total (Store.store (More.deliver_all ext ds w)) user
    - More.ledger_total (Store.store w) user
  ≤ Store.balance_of (Store.store (More.deliver_all ext ds w)) user
    - Store.balance_of (Store.store w) user.
Proof.
  revert w. induction ds as [|d ds IH]; intros w Hroom; [simpl; lia|].
  unfold More.deliver_all. simpl.
  destruct (room_for_step ext d w user _ Hroom) as [Hone Hrest].
  specialize (IH (Prog.run ext (Paypal.POST d) w).1 Hrest).
  unfold More.deliver_all in IH.
  destruct (webhook_step ext d w user Hone) as [Hstep _]. simpl in Hstep. lia.
Qed.

Lemma webhook_ledger_backed_by_balance_witness :
  let ds := [ Sample.cap_123; Sample.mystery_plan; Sample.inherited_plan;
              Sample.capture_of "cap_124" "PRO_PLAN" ] in
  More.ledger_total (Store.store (More.deliver_all Reference.ext ds Sample.process)) "user-1"
    - More.ledger_total (Store.store Sample.process) "user-1"
  ≤ Store.balance_of (Store.store (More.deliver_all Reference.ext ds Sample.process)) "user-1"
    - Store.balance_of (Store.store Sample.process) "user-1".
Proof.
  apply (webhook_ledger_backed_by_balance Reference.ext
           [ Sample.cap_123; Sample.mystery_plan; Sample.inherited_plan;
             Sample.capture_of "cap_124" "PRO_PLAN" ] Sample.process "user-1").
  vm_compute. repeat split; discriminate.
Defined.

(** Beyond the range the ledger runs ahead of the balance: a purchase of 100
    credits on a balance of 2147483600 writes its ledger row and leaves the
    balance where it was. *)
Example webhook_ledger_ahead_beyond_range :
  let w := Store.World
             (Store.with_user_credits <["user-1" := 2147483600]> Sample.accounts)
             ∅ 0 [] in
  let w1 := (Prog.run Reference.ext (Paypal.POST Sample.cap_123) w).1 in
  Store.balance_of (Store.store w1) "user-1" = 2147483600
  ∧ More.ledger_total (Store.store w1) "user-1" = 100.
Proof. vm_compute. done. Qed.

(** When every capture carries its [amount], the two agree: over any
    sequence of deliveries the balance of every user changes by exactly the
    sum of the ledger rows written for that user, as long as the balance has
    room, within the 32-bit range of its column, for as many purchases of
    the largest package as there are deliveries. *)
Theorem webhook_conservation (ext : Store.externals)
    (ds : list Paypal.delivery) (w : Store.world) (user : string) :
  Forall More.has_amount ds →
  More.room_for (length ds) (Store.store w) user →
  Store.balance_of (Store.store (More.deliver_all ext ds w)) user
    - Store.balance_of (Store.store w) user
  = More.ledger_total (Store.store (More.deliver_all ext ds w)) user
    - More.ledger_total (Store.store w) user.
Proof.
  intros Hds. revert w.
  induction Hds as [|d ds Hd Hds IH]; intros w Hroom; [simpl; lia|].
  unfold More.deliver_all. simpl.
  destruct (room_for_step ext d w user _ Hroom) as [Hone Hrest].
  specialize (IH (Prog.run ext (Paypal.POST d) w).1 Hrest).
  unfold More.deliver_all in IH.
  destruct (webhook_step ext d w user Hone) as (_ & Hstep & _). simpl in Hstep.
  specialize (Hstep Hd). lia.
Qed.

Lemma sample_deliveries_have_amount :
  Forall More.has_amount
    [ Sample.cap_123; Sample.mystery_plan; Sample.inherited_plan;
      Sample.capture_of "cap_124" "PRO_PLAN" ].
Proof.
  repeat constructor; intros ev c [= <-] [= <-]; eexists; reflexivity.
Defined.

(** Four deliveries for [user-1]: two purchases (100 and 500), an unknown
    plan and an inherited name. *)
Lemma webhook_conservation_witness :
  let ds := [ Sample.cap_123; Sample.mystery_plan; Sample.inherited_plan;
              Sample.capture_of "cap_124" "PRO_PLAN" ] in
  Store.balance_of (Store.store (More.deliver_all Reference.ext ds Sample.process)) "user-1"
    - Store.balance_of (Store.store Sample.process) "user-1"
  = More.ledger_total (Store.store (More.deliver_all Reference.ext ds Sample.process)) "user-1"
    - More.ledger_total (Store.store Sample.process) "user-1".
Proof.
  apply (webhook_conservation Reference.ext
           [ Sample.cap_123; Sample.mystery_plan; Sample.inherited_plan;
             Sample.capture_of "cap_124" "PRO_PLAN" ] Sample.process "user-1").
  - exact sample_deliveries_have_amount.
  - vm_compute. repeat split; discriminate.
Defined.

Example webhook_conservation_sample :
  More.ledger_total
    (Store.store
       (More.deliver_all Reference.ext
          [ Sample.cap_123; Sample.mystery_plan; Sample.inherited_plan;
            Sample.capture_of "cap_124" "PRO_PLAN" ] Sample.process)) "user-1"
  = 600.
Proof. vm_compute. reflexivity. Qed.

(** ** Credit deduction endpoint: the gates before the amount *)

(** A request that carries no bearer token of the session table is answered
    401 and changes nothing at all: it is not counted by the rate limiter
    and nothing is written to the console. *)
Theorem deduct_unauthenticated_untouched (ext : Store.externals)
    (req : Deduct.call_in) (w : Store.world) :
  More.user_of (Deduct.authorization req) (Store.store w) = None →
  ∃ msg, Prog.run ext (Deduct.POST req) w
         = (w, inl (Deduct.Response 401 (Deduct.Failure msg))).
Proof.
  unfold More.user_of, Deduct.POST.
  destruct (Deduct.authorization req) as [header|]; simpl; [|eauto].
  destruct (String.prefix "Bearer " header); simpl; [|eauto].
  intros ->. simpl. eauto.
Qed.

Lemma deduct_unauthenticated_untouched_witness :
  ∃ msg,
    Prog.run Reference.ext
      (Deduct.POST (Deduct.CallIn (Some "Bearer stolen")
                      (JS.Fields (Deduct.Payload (Some (Deduct.JNumber 1)) None))))
      Sample.process
    = (Sample.process, inl (Deduct.Response 401 (Deduct.Failure msg))).
Proof.
  apply (deduct_unauthenticated_untouched Reference.ext
           (Deduct.CallIn (Some "Bearer stolen")
              (JS.Fields (Deduct.Payload (Some (Deduct.JNumber 1)) None)))
           Sample.process).
  reflexivity.
Defined.

(** Every signed-in request is counted by the rate limiter, whatever becomes
    of it afterwards: a request turned down for its amount, one whose body
    does not parse and one that is refused for lack of credits use up a slot
    of the window just as a successful one does. *)
Theorem deduct_every_signed_in_request_counts (ext : Store.externals)
    (req : Deduct.call_in) (w : Store.world) (user : string) :
  Deduct.signed_in req w user →
  Store.rateLimitMap (Prog.run ext (Deduct.POST req) w).1
  = (RateLimit.checkRateLimit user (Store.clock w) (Store.rateLimitMap w)).1.
Proof.
  intros (header & Hauth & Hpre & Huser).
  unfold Deduct.POST. rewrite Hauth, Hpre. simpl. rewrite Huser. simpl.
  destruct (RateLimit.checkRateLimit user (Store.clock w) (Store.rateLimitMap w))
    as [m ok].
  simpl. destruct ok; simpl; [|done].
  destruct (Deduct.parsed req) as [| |body]; simpl; [done|done|].
  destruct (_ || _); simpl; [done|].
  destruct (negb _); simpl; [done|].
  destruct (Store.deductCreditsAtomic ext user _ _ _) as [d1 res]. simpl.
  by destruct (Store.success res).
Qed.

Lemma deduct_every_signed_in_request_counts_witness :
  Store.rateLimitMap
    (Prog.run Reference.ext (Deduct.POST (Sample.deduct None)) Sample.process).1
  = (RateLimit.checkRateLimit "user-1" (Store.clock Sample.process)
       (Store.rateLimitMap Sample.process)).1.
Proof.
  apply (deduct_every_signed_in_request_counts Reference.ext (Sample.deduct None)
           Sample.process "user-1").
  exact (sample_signed_in None Sample.process eq_refl).
Defined.

(** A signed-in request that the rate limiter lets through and whose body
    cannot be read, or reads as [null], is answered 500 with the fixed
    message, the exception text going to the console only, and deducts
    nothing. *)
Theorem deduct_unreadable_body (ext : Store.externals)
    (req : Deduct.call_in) (w : Store.world) (user : string) :
  Deduct.signed_in req w user →
  (RateLimit.checkRateLimit user (Store.clock w) (Store.rateLimitMap w)).2 = true →
  JS.fields_of (Deduct.parsed req) = None →
  (Prog.run ext (Deduct.POST req) w).2
    = inl (Deduct.Response 500
             (Deduct.Failure "Internal server error. Please try again."))
  ∧ Store.store (Prog.run ext (Deduct.POST req) w).1 = Store.store w
  ∧ filter (λ r, Trace.deducts r = true) (Prog.requests ext (Deduct.POST req) w) = [].
Proof.
  intros (header & Hauth & Hpre & Huser) Hgate Hbody.
  unfold Deduct.POST. rewrite Hauth, Hpre. simpl. rewrite Huser. simpl.
  destruct (RateLimit.checkRateLimit user (Store.clock w) (Store.rateLimitMap w))
    as [m ok].
  simpl in *. subst ok. simpl.
  by destruct (Deduct.parsed req) as [| |body]; simpl in *.
Qed.

Lemma deduct_unreadable_body_witness :
  let req := Deduct.CallIn (Some "Bearer tok-1") JS.Threw in
  (Prog.run Reference.ext (Deduct.POST req) Sample.process).2
    = inl (Deduct.Response 500
             (Deduct.Failure "Internal server error. Please try again."))
  ∧ Store.store (Prog.run Reference.ext (Deduct.POST req) Sample.process).1
    = Store.store Sample.process
  ∧ filter (λ r, Trace.deducts r = true)
      (Prog.requests Reference.ext (Deduct.POST req) Sample.process) = [].
Proof.
  apply (deduct_unreadable_body Reference.ext
           (Deduct.CallIn (Some "Bearer tok-1") JS.Threw) Sample.process "user-1").
  - exists "Bearer tok-1". repeat split; reflexivity.
  - reflexivity.
  - reflexivity.
Defined.

(** A request that passes every gate hands the user behind the token, the
    amount and the reason (or [Credit usage]) to [deductCreditsAtomic], keeps
    the database that call returns, and reports its verdict: 200 with the
    remaining balance and the amount asked for when it succeeded, 402 with
    its error, remaining balance and required amount when it did not. *)
Theorem deduct_reports_the_callee (ext : Store.externals)
    (req : Deduct.call_in) (w : Store.world) (user : string)
    (body : Deduct.payload) (q : Q) :
  Deduct.signed_in req w user →
  (RateLimit.checkRateLimit user (Store.clock w) (Store.rateLimitMap w)).2 = true →
  Deduct.parsed req = JS.Fields body →
  Deduct.amount body = Some (Deduct.JNumber q) →
  (0 < q)%Q → (q <= 1000)%Q →
  let done := Store.deductCreditsAtomic ext user q (Deduct.reason_of body)
                (Store.store w) in
  Store.store (Prog.run ext (Deduct.POST req) w).1 = done.1
  ∧ (Prog.run ext (Deduct.POST req) w).2
    = inl (if Store.success done.2
           then Deduct.Response 200 (Deduct.Deducted (Store.remaining done.2) q)
           else Deduct.Response 402
                  (Deduct.Refused (Store.error done.2) (Store.remaining done.2)
                     (Store.required done.2))).
Proof.
  intros (header & Hauth & Hpre & Huser) Hgate Hbody Hq Hpos Hmax.
  pose proof (proj2 (validation_spec (Deduct.amount body))) as Hspec.
  destruct Hspec as [E1 E2]; [by exists q|].
  unfold Deduct.POST. rewrite Hauth, Hpre. simpl. rewrite Huser. simpl.
  destruct (RateLimit.checkRateLimit user (Store.clock w) (Store.rateLimitMap w))
    as [m ok].
  simpl in *. subst ok. simpl. rewrite Hbody. rewrite E1, E2. rewrite Hq. simpl.
  unfold Deduct.reason_of.
  destruct (Store.deductCreditsAtomic ext user q _ (Store.store w)) as [d1 res].
  simpl. by destruct (Store.success res).
Qed.

Lemma deduct_reports_the_callee_witness :
  let req := Sample.deduct (Some (Deduct.JNumber 2)) in
  Store.balance_of
    (Store.store (Prog.run Reference.ext (Deduct.POST req) Sample.process).1) "user-1"
  = 3
  ∧ (Prog.run Reference.ext (Deduct.POST req) Sample.process).2
    = inl (Deduct.Response 200 (Deduct.Deducted (Some 3) 2)).
Proof.
  destruct (deduct_reports_the_callee Reference.ext
              (Sample.deduct (Some (Deduct.JNumber 2))) Sample.process "user-1"
              (Deduct.Payload (Some (Deduct.JNumber 2)) None) 2
              (sample_signed_in _ Sample.process eq_refl) eq_refl eq_refl eq_refl
              eq_refl) as [Hs Hr].
  - discriminate.
  - split; [by rewrite Hs | exact Hr].
Defined.

(** ** Batch submission: what a refused submission leaves behind *)

(** A submission without a bearer token of the session table is answered 401
    and changes nothing. *)
Theorem batch_unauthenticated_untouched (ext : Store.externals)
    (req : Batch.submission) (w : Store.world) :
  More.user_of (Batch.authorization req) (Store.store w) = None →
  ∃ msg, Prog.run ext (Batch.POST req) w
         = (w, inl (Batch.Response 401 (Batch.Failure msg))).
Proof.
  unfold More.user_of, Batch.POST.
  destruct (Batch.authorization req) as [header|]; simpl; [|eauto].
  destruct (String.prefix "Bearer " header); simpl; [|eauto].
  intros ->. simpl. eauto.
Qed.

Lemma batch_unauthenticated_untouched_witness :
  ∃ msg,
    Prog.run Reference.ext
      (Batch.POST (Batch.Submission (Some "tok-1")
                     (Batch.parsed Sample.merge_two)))
      Sample.process
    = (Sample.process, inl (Batch.Response 401 (Batch.Failure msg))).
Proof.
  apply (batch_unauthenticated_untouched Reference.ext
           (Batch.Submission (Some "tok-1") (Batch.parsed Sample.merge_two))
           Sample.process).
  reflexivity.
Defined.

(** Whatever the submission and whatever [deduct_credits] does: a submission
    that is not answered 200 has written nothing.  The database is as
    before, no job row, no queue row and no deduction were requested. *)
Theorem batch_failure_writes_nothing (ext : Store.externals)
    (req : Batch.submission) (w : Store.world) (r : Batch.response) :
  (Prog.run ext (Batch.POST req) w).2 = inl r →
  Batch.status r ≠ 200 →
  Store.store (Prog.run ext (Batch.POST req) w).1 = Store.store w
  ∧ omap Trace.persisted_job (Prog.requests ext (Batch.POST req) w) = []
  ∧ omap Trace.reservation (Prog.requests ext (Batch.POST req) w) = [].
Proof.
  unfold Batch.POST.
  destruct (Batch.authorization req) as [header|]; simpl; [|done].
  destruct (String.prefix "Bearer " header); simpl; [|done].
  destruct (Store.auth_users (Store.store w) !! _) as [user|]; simpl; [|done].
  destruct (Batch.parsed req) as [| |body]; simpl; [done|done|].
  destruct (JS.present (Batch.operation body)) as [operation|]; simpl; [|done].
  destruct (Batch.files body) as [[|f fs]|]; simpl; try done.
  destruct (JS.truthy (JS.get Batch.CREDIT_COSTS operation)); simpl; [|done].
  destruct (JS.lt _ _); simpl; [done|].
  intros [= <-]. simpl. done.
Qed.

Lemma batch_failure_writes_nothing_witness :
  Store.store (Prog.run Reference.ext (Batch.POST Sample.ocr_two) Sample.process).1
    = Store.store Sample.process
  ∧ omap Trace.persisted_job
      (Prog.requests Reference.ext (Batch.POST Sample.ocr_two) Sample.process) = []
  ∧ omap Trace.reservation
      (Prog.requests Reference.ext (Batch.POST Sample.ocr_two) Sample.process) = [].
Proof.
  apply (batch_failure_writes_nothing Reference.ext Sample.ocr_two Sample.process
           (Batch.Response 402
              (Batch.Insufficient "Insufficient credits" (JS.Number 6) (JS.Number 5)))).
  - reflexivity.
  - discriminate.
Defined.

(** The answers to a malformed submission of a signed-in user whose body
    parses to a value other than [null]: 400 when the operation is missing or
    empty, when the files are missing or the list is empty, and when the
    operation is no property of the cost table; in each case before the
    balance is read.  (A body that cannot be parsed, or that is [null], is
    answered 500: see [batch_body_without_fields].) *)
Theorem batch_malformed_submission (ext : Store.externals)
    (req : Batch.submission) (w : Store.world) (user : string)
    (body : Batch.payload) :
  More.user_of (Batch.authorization req) (Store.store w) = Some user →
  Batch.parsed req = JS.Fields body →
  (JS.present (Batch.operation body) = None
   ∨ Batch.files body = None
   ∨ Batch.files body = Some []
   ∨ ∃ operation, JS.present (Batch.operation body) = Some operation
                  ∧ JS.get Batch.CREDIT_COSTS operation = JS.Undefined) →
  (∃ msg, Prog.run ext (Batch.POST req) w
          = (w, inl (Batch.Response 400 (Batch.Failure msg))))
  ∧ filter (λ r, Trace.reads_balance r = true)
      (Prog.requests ext (Batch.POST req) w) = [].
Proof.
  unfold More.user_of, Batch.POST.
  destruct (Batch.authorization req) as [header|]; simpl; [|done].
  destruct (String.prefix "Bearer " header); simpl; [|done].
  intros -> ->. simpl.
  intros [Hop|[Hf|[Hf|(operation & Hop & Hcost)]]].
  - rewrite Hop. simpl. eauto.
  - rewrite Hf. destruct (JS.present (Batch.operation body)); simpl; eauto.
  - rewrite Hf. destruct (JS.present (Batch.operation body)); simpl; eauto.
  - rewrite Hop, Hcost.
    destruct (Batch.files body) as [[|f fs]|]; simpl; eauto.
Qed.

(** A signed-in submission whose body cannot be parsed or is [null] throws
    where the body is read; it is answered 500 and writes nothing. *)
Lemma batch_body_without_fields (ext : Store.externals) (req : Batch.submission)
    (w : Store.world) (user : string) :
  More.user_of (Batch.authorization req) (Store.store w) = Some user →
  JS.fields_of (Batch.parsed req) = None →
  ∃ r, (Prog.run ext (Batch.POST req) w).2 = inl r
       ∧ Batch.status r = 500
       ∧ Store.store (Prog.run ext (Batch.POST req) w).1 = Store.store w.
Proof.
  unfold More.user_of, Batch.POST.
  destruct (Batch.authorization req) as [header|]; simpl; [|done].
  destruct (String.prefix "Bearer " header); simpl; [|done].
  intros ->. simpl.
  destruct (Batch.parsed req) as [| |body]; simpl; [eauto|eauto|done].
Qed.

Lemma batch_malformed_submission_witness :
  (∃ msg,
     Prog.run Reference.ext (Batch.POST (Sample.submit "shred" ["a.pdf"])) Sample.process
     = (Sample.process, inl (Batch.Response 400 (Batch.Failure msg))))
  ∧ filter (λ r, Trace.reads_balance r = true)
      (Prog.requests Reference.ext (Batch.POST (Sample.submit "shred" ["a.pdf"]))
         Sample.process) = [].
Proof.
  apply (batch_malformed_submission Reference.ext (Sample.submit "shred" ["a.pdf"])
           Sample.process "user-1"
           (Batch.Payload (Some "shred") (Some ["a.pdf"]) None)).
  - reflexivity.
  - reflexivity.
  - right; right; right. exists "shred". split; reflexivity.
Defined.

(** The operation test is a property lookup on the cost table, so a name
    that every object inherits passes it.  For such an operation the cost is
    not a number, the comparison with the balance is false whatever the
    balance, and the submission is accepted: the job is written and queued,
    and [deduct_credits] is asked for an amount that is not a number. *)
Theorem batch_inherited_operation_accepted (ext : Store.externals)
    (req : Batch.submission) (w : Store.world) (user operation : string)
    (body : Batch.payload) (f : string) (fs : list string) :
  More.user_of (Batch.authorization req) (Store.store w) = Some user →
  Batch.parsed req = JS.Fields body →
  JS.present (Batch.operation body) = Some operation →
  operation ∈ JS.Object_prototype →
  Batch.files body = Some (f :: fs) →
  let job := Batch.job_of w user operation (f :: fs) (Batch.options_of req) in
  (∃ msg, (Prog.run ext (Batch.POST req) w).2
          = inl (Batch.Response 200 (Batch.Created job JS.NaN msg)))
  ∧ omap Trace.reservation (Prog.requests ext (Batch.POST req) w) = [JS.NaN]
  ∧ Store.store (Prog.run ext (Batch.POST req) w).1
    = Store.add_queue_row (Store.QueueRow (Store.job_id job) "batch_pdf" "pending")
        (Store.deduct_credits ext user JS.NaN (Batch.reason_of operation (f :: fs))
           (Store.add_batch_job job (Store.store w))).
Proof.
  intros Huser Hbody Hop Hin Hfiles.
  assert (Hget : JS.get Batch.CREDIT_COSTS operation = JS.Builtin
                 ∨ JS.get Batch.CREDIT_COSTS operation = JS.Prototype).
  { unfold JS.Object_prototype in Hin.
    repeat (apply elem_of_cons in Hin as [->|Hin];
            [vm_compute; by eauto|]).
    by apply elem_of_nil in Hin. }
  revert Huser. unfold More.user_of, Batch.POST, Batch.options_of.
  destruct (Batch.authorization req) as [header|]; simpl; [|done].
  destruct (String.prefix "Bearer " header); simpl; [|done].
  intros ->. simpl. rewrite Hbody, Hop, Hfiles. simpl.
  unfold Batch.creditCost.
  destruct Hget as [-> | ->]; simpl; rewrite or_else_balance; simpl; eauto.
Qed.

Lemma batch_inherited_operation_accepted_witness :
  let req := Sample.submit "toString" ["a.pdf"; "b.pdf"] in
  let job := Batch.job_of Sample.process "user-1" "toString" ["a.pdf"; "b.pdf"] [] in
  (∃ msg, (Prog.run Reference.ext (Batch.POST req) Sample.process).2
          = inl (Batch.Response 200 (Batch.Created job JS.NaN msg)))
  ∧ omap Trace.reservation (Prog.requests Reference.ext (Batch.POST req) Sample.process)
    = [JS.NaN]
  ∧ Store.balance_of
      (Store.store (Prog.run Reference.ext (Batch.POST req) Sample.process).1) "user-1"
    = 5.
Proof.
  destruct (batch_inherited_operation_accepted Reference.ext
              (Sample.submit "toString" ["a.pdf"; "b.pdf"]) Sample.process
              "user-1" "toString"
              (Batch.Payload (Some "toString") (Some ["a.pdf"; "b.pdf"]) None)
              "a.pdf" ["b.pdf"] eq_refl eq_refl eq_refl) as (Hr & Hq & Hs).
  - unfold JS.Object_prototype. do 8 apply list_elem_of_further. apply list_elem_of_here.
  - reflexivity.
  - split; [exact Hr|]. split; [exact Hq|]. rewrite Hs. reflexivity.
Defined.

(** ** Batch job status *)

Section BatchGetFacts.
Import Store BatchGet.

Lemma filter_elem {A} (f : A → bool) (l : list A) (x : A) :
  x ∈ List.filter f l ↔ x ∈ l ∧ f x = true.
Proof. rewrite !list_elem_of_In. apply List.filter_In. Qed.

Lemma allocated_ids_below (d : db) :
  allocated d →
  List.filter (λ j, Nat.eqb (job_id j) (length (batch_jobs d))) (batch_jobs d) = [].
Proof.
  intros Hd.
  destruct (List.filter _ _) as [|j js] eqn:E; [done|].
  assert (Hj : j ∈ List.filter
                 (λ j, Nat.eqb (job_id j) (length (batch_jobs d))) (batch_jobs d))
    by (rewrite E; apply list_elem_of_here).
  apply filter_elem in Hj as [Hin Hid].
  apply list_elem_of_lookup in Hin as [i Hi].
  pose proof (lookup_lt_Some _ _ _ Hi) as Hlt.
  apply Hd in Hi. apply Nat.eqb_eq in Hid. lia.
Qed.

Lemma filter_and_nil {A} (f g : A → bool) (l : list A) :
  List.filter f l = [] → List.filter (λ x, f x && g x) l = [].
Proof.
  induction l as [|x l IH]; simpl; [done|].
  destruct (f x); simpl; [discriminate|]. exact IH.
Qed.

End BatchGetFacts.

(** A job is handed out only to its owner: when the answer carries a job,
    the request came with the token of a user, the job is a row of the table
    with the id asked for, and that user is the one who submitted it.  A
    request without a valid token, or for the job of somebody else, gets no
    job. *)
Theorem batch_get_job_only_to_owner (req : BatchGet.query) (d : Store.db)
    (r : BatchGet.response) (job : Store.batch_job) :
  BatchGet.GET req d = r →
  BatchGet.json r = BatchGet.Job job →
  ∃ user,
    More.user_of (BatchGet.authorization req) d = Some user
    ∧ Store.job_user_id job = user
    ∧ BatchGet.id req = Some (Store.job_id job)
    ∧ job ∈ Store.batch_jobs d
    ∧ BatchGet.status r = 200.
Proof.
  intros <-. unfold BatchGet.GET, More.user_of.
  destruct (BatchGet.authorization req) as [header|]; simpl; [|discriminate].
  destruct (String.prefix "Bearer " header); simpl; [|discriminate].
  destruct (Store.auth_users d !! _) as [user|]; simpl; [|discriminate].
  destruct (String.eqb _ "operations"); simpl; [discriminate|].
  destruct (BatchGet.id req) as [jobId|]; simpl; [|discriminate].
  destruct (List.filter _ _) as [|j [|j2 js]] eqn:E; simpl; try discriminate.
  intros [= ->]. exists user.
  assert (Hj : job ∈ List.filter
                 (λ j, Nat.eqb (Store.job_id j) jobId && BatchGet.owned user j)
                 (Store.batch_jobs d))
    by (rewrite E; apply list_elem_of_here).
  apply filter_elem in Hj as [Hin Hok].
  apply andb_true_iff in Hok as [Hid Hown].
  apply Nat.eqb_eq in Hid. apply String.eqb_eq in Hown.
  repeat split; try done. by rewrite Hid.
Qed.

(** The job list of a user: at most 50 jobs, every one of them a job of that
    user, and they are the most recent ones, newest first (read backwards,
    the list is the tail of the user's jobs in the order of submission). *)
Theorem batch_get_lists_latest_own_jobs (req : BatchGet.query) (d : Store.db)
    (jobs : list Store.batch_job) :
  BatchGet.json (BatchGet.GET req d) = BatchGet.Jobs jobs →
  ∃ user,
    More.user_of (BatchGet.authorization req) d = Some user
    ∧ let mine := List.filter (BatchGet.owned user) (Store.batch_jobs d) in
      (length jobs ≤ 50)%nat
      ∧ Forall (λ j, Store.job_user_id j = user ∧ j ∈ Store.batch_jobs d) jobs
      ∧ rev jobs = drop (length mine - 50) mine.
Proof.
  unfold BatchGet.GET, More.user_of.
  destruct (BatchGet.authorization req) as [header|]; simpl; [|discriminate].
  destruct (String.prefix "Bearer " header); simpl; [|discriminate].
  destruct (Store.auth_users d !! _) as [user|]; simpl; [|discriminate].
  destruct (String.eqb _ "operations"); simpl; [discriminate|].
  destruct (BatchGet.id req) as [jobId|]; simpl.
  { destruct (List.filter _ _) as [|j [|j2 js]]; discriminate. }
  intros [= <-]. exists user. split; [done|]. simpl. split; [|split].
  - rewrite length_take. lia.
  - apply Forall_forall. intros j Hj.
    apply elem_of_take in Hj as (i & Hj & _).
    apply list_elem_of_lookup_2 in Hj. apply list_elem_of_In in Hj.
    apply List.in_rev in Hj. apply list_elem_of_In in Hj.
    apply filter_elem in Hj as [Hin Hown].
    apply String.eqb_eq in Hown. done.
  - rewrite List.firstn_rev. by rewrite List.rev_involutive.
Qed.

Lemma batch_get_lists_latest_own_jobs_witness :
  let d := Store.store
             (Prog.run Reference.ext (Batch.POST Sample.merge_two) Sample.process).1 in
  let job := Batch.job_of Sample.process "user-1" "merge" ["a.pdf"; "b.pdf"] [] in
  ∃ user,
    More.user_of (Some "Bearer tok-1") d = Some user
    ∧ let mine := List.filter (BatchGet.owned user) (Store.batch_jobs d) in
      (length [job] ≤ 50)%nat
      ∧ Forall (λ j, Store.job_user_id j = user ∧ j ∈ Store.batch_jobs d) [job]
      ∧ rev [job] = drop (length mine - 50) mine.
Proof.
  apply (batch_get_lists_latest_own_jobs
           (BatchGet.Query (Some "Bearer tok-1") None None)
           (Store.store
              (Prog.run Reference.ext (Batch.POST Sample.merge_two) Sample.process).1)
           [Batch.job_of Sample.process "user-1" "merge" ["a.pdf"; "b.pdf"] []]).
  vm_compute. reflexivity.
Defined.

Lemma batch_get_job_only_to_owner_witness :
  let d := Store.store
             (Prog.run Reference.ext (Batch.POST Sample.merge_two) Sample.process).1 in
  let job := Batch.job_of Sample.process "user-1" "merge" ["a.pdf"; "b.pdf"] [] in
  ∃ user,
    More.user_of (Some "Bearer tok-1") d = Some user
    ∧ Store.job_user_id job = user
    ∧ Some 0%nat = Some (Store.job_id job)
    ∧ job ∈ Store.batch_jobs d
    ∧ BatchGet.status (BatchGet.Response 200 (BatchGet.Job job)) = 200.
Proof.
  apply (batch_get_job_only_to_owner
           (BatchGet.Query (Some "Bearer tok-1") (Some 0%nat) None)
           (Store.store
              (Prog.run Reference.ext (Batch.POST Sample.merge_two) Sample.process).1)
           (BatchGet.Response 200
              (BatchGet.Job
                 (Batch.job_of Sample.process "user-1" "merge" ["a.pdf"; "b.pdf"] [])))
           (Batch.job_of Sample.process "user-1" "merge" ["a.pdf"; "b.pdf"] [])).
  - vm_compute. reflexivity.
  - reflexivity.
Defined.

(** Submission and status fit together.  When the job table holds the rows
    under the ids the store gave them and [deduct_credits] leaves jobs and
    sessions alone, the job that a successful submission reports can be
    fetched right away, with the same authorization header and the id of the
    report, and the row fetched is the row reported. *)
Theorem batch_submitted_job_can_be_fetched (ext : Store.externals)
    (req : Batch.submission) (w : Store.world) (job : Store.batch_job)
    (used : JS.value) (msg : string) (action : option string) :
  More.keeps_jobs ext →
  BatchGet.allocated (Store.store w) →
  JS.present action ≠ Some "operations" →
  (Prog.run ext (Batch.POST req) w).2
    = inl (Batch.Response 200 (Batch.Created job used msg)) →
  BatchGet.GET (BatchGet.Query (Batch.authorization req) (Some (Store.job_id job)) action)
    (Store.store (Prog.run ext (Batch.POST req) w).1)
  = BatchGet.Response 200 (BatchGet.Job job)
  ∧ BatchGet.allocated (Store.store (Prog.run ext (Batch.POST req) w).1).
Proof.
  intros Hext Hd Haction.
  assert (Hact : String.eqb (default "list" (JS.present action)) "operations" = false).
  { apply String.eqb_neq. destruct (JS.present action) as [a|]; simpl; [|done].
    intros ->. by apply Haction. }
  unfold Batch.POST, BatchGet.GET.
  destruct (Batch.authorization req) as [header|]; simpl; [|discriminate].
  destruct (String.prefix "Bearer " header); simpl; [|discriminate].
  destruct (Store.auth_users (Store.store w) !! _) as [user|] eqn:Huser; simpl;
    [|discriminate].
  destruct (Batch.parsed req) as [| |body]; simpl; [discriminate|discriminate|].
  destruct (JS.present (Batch.operation body)) as [operation|]; simpl; [|discriminate].
  destruct (Batch.files body) as [[|f fs]|]; simpl; try discriminate.
  destruct (JS.truthy (JS.get Batch.CREDIT_COSTS operation)); simpl; [|discriminate].
  destruct (JS.lt _ _); simpl; [discriminate|].
  intros [= <- <- <-]. simpl.
  match goal with
  | |- context [Store.deduct_credits ext ?u ?a ?r ?d0] =>
      destruct (Hext u a r d0) as [Hjobs Hsessions]
  end.
  rewrite Hsessions, Hjobs. simpl. rewrite Huser. rewrite Hact.
  split.
  - rewrite List.filter_app. simpl.
    rewrite (filter_and_nil _ _ _ (allocated_ids_below _ Hd)). simpl.
    rewrite Nat.eqb_refl. unfold BatchGet.owned. simpl.
    by rewrite String.eqb_refl.
  - intros i j. simpl. rewrite Hjobs. simpl. intros Hlook.
    apply lookup_app_Some in Hlook as [Hold|[Hge Hnew]].
    + by apply Hd.
    + apply list_lookup_singleton_Some in Hnew as [Hi <-]. simpl. lia.
Qed.

Lemma reference_keeps_jobs : More.keeps_jobs Reference.ext.
Proof.
  intros user amount reason d. simpl. unfold Reference.deduct_credits.
  destruct amount as [|n| | | |]; try done.
  by destruct (n <=? Store.balance_of d user).
Qed.

Lemma sample_allocated : BatchGet.allocated (Store.store Sample.process).
Proof. intros i j H. by destruct i. Qed.

Lemma batch_submitted_job_can_be_fetched_witness :
  let job := Batch.job_of Sample.process "user-1" "merge" ["a.pdf"; "b.pdf"] [] in
  let w1 := (Prog.run Reference.ext (Batch.POST Sample.merge_two) Sample.process).1 in
  BatchGet.GET (BatchGet.Query (Some "Bearer tok-1") (Some 0%nat) None) (Store.store w1)
  = BatchGet.Response 200 (BatchGet.Job job)
  ∧ BatchGet.allocated (Store.store w1).
Proof.
  apply (batch_submitted_job_can_be_fetched Reference.ext Sample.merge_two
           Sample.process
           (Batch.job_of Sample.process "user-1" "merge" ["a.pdf"; "b.pdf"] [])
           (JS.Number 2) "Processing 2 files." None).
  - exact reference_keeps_jobs.
  - exact sample_allocated.
  - discriminate.
  - vm_compute. reflexivity.
Defined.

(** The price list is the price charged.  A signed-in request with
    [action=operations] is answered with one entry per operation of the cost
    table, in the order of the table (merge, split, compress, convert,
    watermark, password_protect, remove_password, rotate, extract_pages,
    add_page_numbers, ocr), whether or not an id is given; each
    entry carries the per-file cost that a submission is charged, a
    description, and a display name as long as the operation's name; and
    every operation that a submission accepts at a price is listed. *)
Theorem batch_get_operations_match_costs (req : BatchGet.query) (d : Store.db)
    (user : string) :
  More.user_of (BatchGet.authorization req) d = Some user →
  JS.present (BatchGet.action req) = Some "operations" →
  ∃ entries,
    BatchGet.GET req d = BatchGet.Response 200 (BatchGet.Operations entries)
    ∧ length entries = 11%nat
    ∧ map BatchGet.entry_id entries
      = [ "merge"; "split"; "compress"; "convert"; "watermark";
          "password_protect"; "remove_password"; "rotate"; "extract_pages";
          "add_page_numbers"; "ocr" ]
    ∧ Forall (λ e, Batch.CREDIT_COSTS !! BatchGet.entry_id e = Some (BatchGet.credit_cost e)
                   ∧ is_Some (BatchGet.description e)
                   ∧ String.length (BatchGet.entry_name e)
                     = String.length (BatchGet.entry_id e)) entries
    ∧ ∀ operation unit, Batch.CREDIT_COSTS !! operation = Some unit →
        ∃ e, e ∈ entries ∧ BatchGet.entry_id e = operation
             ∧ BatchGet.credit_cost e = unit.
Proof.
  unfold More.user_of, BatchGet.GET.
  destruct (BatchGet.authorization req) as [header|]; simpl; [|done].
  destruct (String.prefix "Bearer " header); simpl; [|done].
  intros -> ->. simpl. eexists. split; [reflexivity|].
  split; [reflexivity|]. split; [reflexivity|]. split.
  - repeat constructor; try (vm_compute; reflexivity); eexists; reflexivity.
  - intros operation unit Hcost.
    change Batch.CREDIT_COSTS with
      (list_to_map BatchGet.CREDIT_COSTS_entries : gmap string Z) in Hcost.
    apply elem_of_list_to_map_2 in Hcost.
    exists (BatchGet.OperationEntry operation (BatchGet.display_name operation) unit
              (BatchGet.getOperationDescription operation)).
    split; [|done].
    apply (list_elem_of_fmap_2
             (λ e, BatchGet.OperationEntry e.1 (BatchGet.display_name e.1) e.2
                     (BatchGet.getOperationDescription e.1))
             BatchGet.CREDIT_COSTS_entries (operation, unit)).
    exact Hcost.
Qed.

Lemma batch_get_operations_match_costs_witness :
  ∃ entries,
    BatchGet.GET (BatchGet.Query (Some "Bearer tok-1") (Some 3%nat) (Some "operations"))
      Sample.accounts
    = BatchGet.Response 200 (BatchGet.Operations entries)
    ∧ length entries = 11%nat
    ∧ map BatchGet.entry_id entries
      = [ "merge"; "split"; "compress"; "convert"; "watermark";
          "password_protect"; "remove_password"; "rotate"; "extract_pages";
          "add_page_numbers"; "ocr" ].
Proof.
  destruct (batch_get_operations_match_costs
              (BatchGet.Query (Some "Bearer tok-1") (Some 3%nat) (Some "operations"))
              Sample.accounts "user-1" eq_refl eq_refl)
    as (es & Hget & Hlen & Horder & _).
  exists es. split; [exact Hget | split; [exact Hlen | exact Horder]].
Defined.

(** ** Display names of operations *)

Section DisplayNames.
Import Stdlib.Strings.Ascii BatchGet.

Lemma upper_word_char c : word_char (upper c) = word_char c.
Proof. by destruct c as [[] [] [] [] [] [] [] []]. Qed.

Lemma upper_upper c : upper (upper c) = upper c.
Proof. by destruct c as [[] [] [] [] [] [] [] []]. Qed.

Lemma upper_underscore c : c ≠ underscore → upper c ≠ underscore.
Proof. destruct c as [[] [] [] [] [] [] [] []]; done. Qed.

Lemma capitalized_twice s : ∀ inside,
  capitalized inside (capitalized inside s) = capitalized inside s.
Proof.
  induction s as [|c s IH]; intros inside; simpl; [done|].
  destruct (word_char c && negb inside) eqn:E.
  - rewrite upper_word_char, E, upper_upper. by rewrite IH.
  - rewrite E. by rewrite IH.
Qed.

Lemma spaced_no_underscore s : underscore ∉ chars (spaced s).
Proof.
  induction s as [|c s IH]; simpl; [apply not_elem_of_nil|].
  apply not_elem_of_cons. split; [|done].
  destruct (Ascii.eqb_spec c "_"%char); [done|]. unfold underscore. congruence.
Qed.

Lemma capitalized_no_underscore s : ∀ inside,
  underscore ∉ chars s → underscore ∉ chars (capitalized inside s).
Proof.
  induction s as [|c s IH]; intros inside Hs; simpl; [done|].
  simpl in Hs. apply not_elem_of_cons in Hs as [Hc Hs].
  apply not_elem_of_cons. split; [|by apply IH].
  destruct (word_char c && negb inside); [|done].
  intros E. symmetry in E. by apply (upper_underscore c).
Qed.

Lemma spaced_fixed s : underscore ∉ chars s → spaced s = s.
Proof.
  induction s as [|c s IH]; simpl; [done|].
  intros H. apply not_elem_of_cons in H as [Hc Hs].
  rewrite (IH Hs). destruct (Ascii.eqb_spec c "_"%char); [|done].
  subst. by destruct Hc.
Qed.

Lemma capitalized_length s : ∀ inside,
  String.length (capitalized inside s) = String.length s.
Proof. induction s as [|c s IH]; intros inside; simpl; [done|]. by rewrite IH. Qed.

Lemma spaced_length s : String.length (spaced s) = String.length s.
Proof. induction s as [|c s IH]; simpl; [done|]. by rewrite IH. Qed.

End DisplayNames.

(** The display name of an operation, for any name whatever: it is as long
    as the name, it contains no underscore, and formatting it again changes
    nothing. *)
Theorem display_name_shape (op : string) :
  String.length (BatchGet.display_name op) = String.length op
  ∧ (BatchGet.underscore ∉ BatchGet.chars (BatchGet.display_name op))
  ∧ BatchGet.display_name (BatchGet.display_name op) = BatchGet.display_name op.
Proof.
  unfold BatchGet.display_name. split; [|split].
  - by rewrite capitalized_length, spaced_length.
  - apply capitalized_no_underscore, spaced_no_underscore.
  - rewrite spaced_fixed.
    + apply capitalized_twice.
    + apply capitalized_no_underscore, spaced_no_underscore.
Qed.

(** ** Rate limiter: the state it keeps *)

Section RateLimitState.
Import RateLimit.

Lemma checkRateLimit_counters u now m :
  More.counters_in_range m → More.counters_in_range (checkRateLimit u now m).1.
Proof.
  intros Hm. unfold checkRateLimit.
  destruct (m !! u) as [l|] eqn:Hu; simpl.
  - destruct (now >? resetAt l); simpl.
    + intros v l' Hv. apply lookup_insert_Some in Hv as [[_ <-]|[_ Hv]].
      * simpl. unfold RATE_LIMIT. lia.
      * by apply (Hm v).
    + destruct (count l >=? RATE_LIMIT) eqn:Hc; simpl; [done|].
      intros v l' Hv. apply lookup_insert_Some in Hv as [[_ <-]|[_ Hv]].
      * simpl. destruct (Hm u l Hu) as [Hlo _].
        rewrite Z.geb_leb in Hc. apply Z.leb_gt in Hc. lia.
      * by apply (Hm v).
  - intros v l' Hv. apply lookup_insert_Some in Hv as [[_ <-]|[_ Hv]].
    + simpl. unfold RATE_LIMIT. lia.
    + by apply (Hm v).
Qed.

Lemma checkRateLimit_dom u now m :
  dom (checkRateLimit u now m).1 = {[u]} ∪ dom m.
Proof.
  unfold checkRateLimit.
  destruct (m !! u) as [l|] eqn:Hu; simpl.
  - assert (Hin : u ∈ dom m) by (apply elem_of_dom; eauto).
    destruct (now >? resetAt l); simpl; [rewrite dom_insert_L; set_solver|].
    destruct (count l >=? RATE_LIMIT); simpl; [set_solver|].
    rewrite dom_insert_L. set_solver.
  - by rewrite dom_insert_L.
Qed.

Lemma serve_app a : ∀ b m,
  serve (a ++ b)%list m =
    ((serve b (serve a m).1).1, ((serve a m).2 ++ (serve b (serve a m).1).2)%list).
Proof.
  induction a as [|[u t] a IH]; intros b m; simpl.
  - by destruct (serve b m).
  - destruct (checkRateLimit u t m) as [m1 ok]. rewrite IH.
    destruct (serve a m1) as [m2 o2]. simpl.
    by destruct (serve b m2).
Qed.

Lemma verdicts_app u a b :
  verdicts u (a ++ b)%list = (verdicts u a ++ verdicts u b)%list.
Proof.
  induction a as [|[v ok] a IH]; simpl; [done|].
  case_bool_decide; simpl; by rewrite IH.
Qed.

Lemma times_replicate u t n : times u (replicate n (u, t)) = replicate n t.
Proof.
  induction n as [|n IH]; simpl; [done|].
  rewrite bool_decide_eq_true_2 by done. by rewrite IH.
Qed.

End RateLimitState.

(** From an empty map, through any calls of any identities at any clock
    readings, every counter the limiter holds stays between 1 and 10. *)
Theorem rate_limit_counters_in_range (calls : list (string * Z)) :
  More.counters_in_range (RateLimit.serve calls ∅).1.
Proof.
  assert (H : ∀ m, More.counters_in_range m →
                   More.counters_in_range (RateLimit.serve calls m).1).
  { induction calls as [|[u t] calls IH]; intros m Hm; simpl; [done|].
    pose proof (checkRateLimit_counters u t m Hm) as H1.
    destruct (RateLimit.checkRateLimit u t m) as [m1 ok]. simpl in H1.
    specialize (IH m1 H1).
    destruct (RateLimit.serve calls m1) as [m2 out]. exact IH. }
  apply H. intros u l Hu. by rewrite lookup_empty in Hu.
Qed.

(** The limiter never forgets an identity: after any calls the map holds an
    entry for exactly the identities it held before and those that called,
    so it grows with every new identity and is never pruned. *)
Theorem rate_limit_never_forgets (calls : list (string * Z))
    (m : gmap string RateLimit.limit) :
  dom (RateLimit.serve calls m).1 = list_to_set calls.*1 ∪ dom m.
Proof.
  revert m. induction calls as [|[u t] calls IH]; intros m; simpl.
  - set_solver.
  - pose proof (checkRateLimit_dom u t m) as Hd.
    destruct (RateLimit.checkRateLimit u t m) as [m1 ok]. simpl in Hd.
    specialize (IH m1).
    destruct (RateLimit.serve calls m1) as [m2 out]. simpl in *.
    rewrite IH, Hd. set_solver.
Qed.

Section RateLimitWindows.
Import RateLimit.

Lemma serve_cons u t rest m :
  serve ((u, t) :: rest) m =
    ((serve rest (checkRateLimit u t m).1).1,
     (u, (checkRateLimit u t m).2) :: (serve rest (checkRateLimit u t m).1).2).
Proof.
  simpl. destruct (checkRateLimit u t m) as [m1 ok]. simpl.
  by destruct (serve rest m1).
Qed.

(** A call that opens a window, followed by up to nine calls inside it: all
    are served, and the window end stays where the first call put it. *)
Lemma serve_window u t0 t m n :
  opens_window u t0 m → t ≤ t0 + RATE_WINDOW → (n ≤ 9)%nat →
  verdicts u (serve ((u, t0) :: replicate n (u, t)) m).2 = replicate (S n) true
  ∧ ∃ c, (serve ((u, t0) :: replicate n (u, t)) m).1 !! u
         = Some (Limit c (t0 + RATE_WINDOW)).
Proof.
  intros Hopen Ht Hn. rewrite serve_cons.
  rewrite (checkRateLimit_opens _ _ _ Hopen).
  cbn [fst snd verdicts]. rewrite bool_decide_eq_true_2 by done.
  destruct (serve_inside u (t0 + RATE_WINDOW) (replicate n (u, t))
              (<[u := Limit 1 (t0 + RATE_WINDOW)]> m) 1 (lookup_insert_eq _ _ _))
    as (c & Hc & Hv).
  { rewrite times_replicate. by apply Forall_replicate. }
  rewrite times_replicate, length_replicate in Hv.
  split; [|by exists c].
  rewrite Hv.
  replace (Z.to_nat (RATE_LIMIT - 1)) with 9%nat by (unfold RATE_LIMIT; lia).
  replace (Nat.min 9 n) with n by lia.
  replace (n - 9)%nat with 0%nat by lia.
  simpl. by rewrite app_nil_r.
Qed.

End RateLimitWindows.

(** The window is fixed, not sliding: an identity that opens a window at
    [t0], uses its other nine calls at the last instant of that window and
    ten more one millisecond later is served all twenty times, nineteen of
    them within two milliseconds. *)
Theorem rate_limit_burst_at_window_edge (u : string) (t0 : Z)
    (m : gmap string RateLimit.limit) :
  RateLimit.opens_window u t0 m →
  let edge := t0 + RateLimit.RATE_WINDOW in
  RateLimit.verdicts u
    (RateLimit.serve
       (((u, t0) :: replicate 9 (u, edge))
        ++ ((u, edge + 1) :: replicate 9 (u, edge + 1)))%list m).2
  = replicate 20 true.
Proof.
  intros Hopen edge.
  rewrite serve_app. cbn [fst snd]. rewrite verdicts_app.
  destruct (serve_window u t0 edge m 9 Hopen) as (Hv1 & c1 & Hc1);
    [unfold edge; lia | lia |].
  rewrite Hv1.
  assert (Hopen2 : RateLimit.opens_window u (edge + 1)
                     (RateLimit.serve ((u, t0) :: replicate 9 (u, edge)) m).1).
  { unfold RateLimit.opens_window. rewrite Hc1. simpl. unfold edge. lia. }
  destruct (serve_window u (edge + 1) (edge + 1) _ 9 Hopen2) as (Hv2 & _);
    [unfold RateLimit.RATE_WINDOW; lia | lia |].
  rewrite Hv2. reflexivity.
Qed.

Lemma rate_limit_burst_at_window_edge_witness :
  RateLimit.verdicts "user-1"
    (RateLimit.serve
       ((("user-1", 1000) :: replicate 9 ("user-1", 61000))
        ++ (("user-1", 61001) :: replicate 9 ("user-1", 61001)))%list ∅).2
  = replicate 20 true.
Proof.
  apply (rate_limit_burst_at_window_edge "user-1" 1000 ∅). exact I.
Defined.

(** ** PayPal webhook: balances only rise *)

(** No delivery, verified or not, well-formed or not, lowers the balance of
    any user: over any sequence of deliveries every balance ends at least
    where it started. *)
Theorem webhook_never_lowers_a_balance (ext : Store.externals)
    (ds : list Paypal.delivery) (w : Store.world) (user : string) :
  Store.balance_of (Store.store w) user
  ≤ Store.balance_of (Store.store (More.deliver_all ext ds w)) user.
Proof.
  revert w. induction ds as [|d ds IH]; intros w; [simpl; lia|].
  unfold More.deliver_all. simpl.
  specialize (IH (Prog.run ext (Paypal.POST d) w).1).
  unfold More.deliver_all in IH.
  pose proof (webhook_balances_never_fall ext d w user). lia.
Qed.
